(** * Orbax checkpoint type handlers

    A shallow embedding of [orbax/checkpoint/type_handlers.py]: the
    dataclasses [ParamInfo], [SaveArgs], [RestoreArgs], [ArrayRestoreArgs],
    the two cast-spec builders, the three [TypeHandler] implementations and
    the type registry, followed by the properties established about them.

    Python dictionaries are finite maps from strings to values.  A dictionary
    that is shared between a caller and a callee (the [tspec] held by a
    [ParamInfo]) lives in a store and is referred to by its location, so that
    in-place item assignment is visible through every alias.  Calls into
    Tensorstore and into JAX's serialization module are events of a small
    free monad; what the backend answers is left to an interpreter. *)

From stdpp Require Import gmap strings list fin_maps.
From Stdlib Require Import ZArith.

Set Warnings "-register-all".
Open Scope string_scope.
Open Scope list_scope.

(** ** Exceptions and results

    The module raises [ValueError] for an unknown type, for a type that is
    already registered, for missing restore arguments and for a restored
    result that is not a scalar.  [BackendError] stands for what Tensorstore
    raises; [DanglingReference] cannot arise from Python code and marks a
    location that the store does not hold. *)

Inductive exn : Type :=
| ValueError (msg : string)
| TypeError (msg : string)
| AttributeError (msg : string)
| KeyError (key : string)
| BackendError (msg : string)
| DanglingReference (l : nat).

Inductive result (A : Type) : Type :=
| Ok (a : A)
| Err (e : exn).

Arguments Ok {A} a.
Arguments Err {A} e.

(** ** Element types *)

Inductive dtype : Type :=
| bool_ | int8 | int16 | int32 | int64
| uint8 | uint16 | uint32 | uint64
| float16 | bfloat16 | float32 | float64.

(** [jnp.dtype(d).name] *)
Definition dtype_name (d : dtype) : string :=
  match d with
  | bool_ => "bool"
  | int8 => "int8" | int16 => "int16" | int32 => "int32" | int64 => "int64"
  | uint8 => "uint8" | uint16 => "uint16" | uint32 => "uint32"
  | uint64 => "uint64"
  | float16 => "float16" | bfloat16 => "bfloat16"
  | float32 => "float32" | float64 => "float64"
  end.

Inductive dtype_kind : Type := KBool | KInt | KFloat.

Definition kind_of (d : dtype) : dtype_kind :=
  match d with
  | bool_ => KBool
  | float16 | bfloat16 | float32 | float64 => KFloat
  | _ => KInt
  end.

(** ** Values written and read *)

(** [Scalar = Union[int, float, np.number]]; [bool] is a subclass of [int].
    The payload of a float is kept as an uninterpreted bit pattern. *)
Inductive Scalar : Type :=
| PyBool (b : bool)
| PyInt (n : Z)
| PyFloat (bits : Z)
| NpNumber (d : dtype) (bits : Z).

Record ndarray : Type := mk_ndarray {
  nd_dtype : dtype;
  nd_shape : list Z;
  nd_data : list Z
}.

Definition ndim (a : ndarray) : nat := length (nd_shape a).

Definition wf_ndarray (a : ndarray) : Prop :=
  Z.of_nat (length (nd_data a)) = fold_right Z.mul 1%Z (nd_shape a).

(** [np.asarray(value)] for a scalar: a zero-dimensional array. *)
Definition np_asarray (v : Scalar) : ndarray :=
  match v with
  | PyBool b => mk_ndarray bool_ [] [Z.b2z b]
  | PyInt n => mk_ndarray int64 [] [n]
  | PyFloat x => mk_ndarray float64 [] [x]
  | NpNumber d x => mk_ndarray d [] [x]
  end.

Definition to_python (d : dtype) (x : Z) : Scalar :=
  match kind_of d with
  | KBool => PyBool (negb (Z.eqb x 0))
  | KInt => PyInt x
  | KFloat => PyFloat x
  end.

(** [a.item()] *)
Definition item (a : ndarray) : result Scalar :=
  match nd_data a with
  | [x] => Ok (to_python (nd_dtype a) x)
  | _ => Err (ValueError
           "can only convert an array of size 1 to a Python scalar")
  end.

(** Device meshes, partition specs and distributed arrays, as far as the
    handlers look into them. *)
Record Mesh : Type := mk_Mesh {
  mesh_devices : list nat;
  mesh_axis_names : list string
}.

Definition PartitionSpec : Type := list (option string).

(** [jax.sharding.MeshPspecSharding(mesh, mesh_axes)] *)
Record MeshPspecSharding : Type := mk_sharding {
  sh_mesh : Mesh;
  sh_spec : PartitionSpec
}.

Record GlobalDeviceArray : Type := mk_gda {
  gda_dtype : dtype;
  gda_shape : list Z;
  gda_sharding : MeshPspecSharding;
  gda_data : list Z
}.

(** Whatever is written carries a [dtype] attribute. *)
Class HasDtype (V : Type) : Type := dtype_of : V -> dtype.

#[global] Instance ndarray_dtype : HasDtype ndarray := nd_dtype.
#[global] Instance gda_has_dtype : HasDtype GlobalDeviceArray := gda_dtype.

(** ** Python values and the store of shared dictionaries *)

Abbreviation loc := nat (only parsing).

Inductive pyval : Type :=
| VNone
| VStr (s : string)
| VInt (n : Z)
| VTuple (t : list Z)
| VDict (d : gmap string pyval)
| VRef (l : loc).

Abbreviation heap := (list (gmap string pyval)) (only parsing).

(** A reference to a dictionary, or [None]. *)
Definition ref_val (r : option loc) : pyval :=
  match r with
  | Some l => VRef l
  | None => VNone
  end.

(** [ts.Spec(tspec)]: the document handed to Tensorstore, with the store it
    points into at the moment of the call. *)
Record Spec : Type := mk_Spec {
  spec_doc : pyval;
  spec_store : heap
}.

(** ** Calls into Tensorstore and JAX serialization *)

Definition TensorStore : Type := nat.
Definition Future : Type := nat.

(** The value of [t.write(value)]: two futures that are awaited apart. *)
Record WriteFutures : Type := mk_WriteFutures {
  copy : Future;
  commit : Future
}.

Inductive call : Type :=
| ts_open (spec : Spec) (create open_ : bool) (file_io_limit : option Z)
| ts_read (t : TensorStore)
| ts_write (t : TensorStore) (value : ndarray)
| await_future (f : Future)
| async_serialize (value : GlobalDeviceArray) (spec : Spec)
| async_deserialize (s : MeshPspecSharding) (spec : Spec)
    (global_shape : option (list Z)).

Definition payload (c : call) : Type :=
  match c with
  | ts_open _ _ _ _ => TensorStore
  | ts_read _ => ndarray
  | ts_write _ _ => WriteFutures
  | await_future _ => unit
  | async_serialize _ _ => list Future
  | async_deserialize _ _ _ => GlobalDeviceArray
  end.

(** A computation performs calls one after the other; each call is answered
    with a value or with the exception it raised. *)
Inductive io (A : Type) : Type :=
| Ret (a : A)
| Vis (c : call) (k : result (payload c) -> io A).

Arguments Ret {A} a.
Arguments Vis {A} c k.

Fixpoint io_bind {A B : Type} (m : io A) (f : A -> io B) : io B :=
  match m with
  | Ret a => f a
  | Vis c k => Vis c (fun r => io_bind (k r) f)
  end.

(** Handler code: it reads and updates the store, may raise, and calls the
    backend.  An exception leaves the store as it was when it was raised. *)
Definition M (A : Type) : Type := heap -> io (result A * heap).

Definition ret {A : Type} (a : A) : M A := fun h => Ret (Ok a, h).

Definition raise {A : Type} (e : exn) : M A := fun h => Ret (Err e, h).

Definition bind {A B : Type} (m : M A) (f : A -> M B) : M B :=
  fun h =>
    io_bind (m h) (fun rh =>
      match rh with
      | (Ok a, h') => f a h'
      | (Err e, h') => Ret (Err e, h')
      end).

(** A backend call, answered when the handler resumes. *)
Definition perform (c : call) : M (payload c) :=
  fun h => Vis c (fun r => Ret (r, h)).

Definition get_heap : M heap := fun h => Ret (Ok h, h).

Definition lift {A : Type} (r : result A) : M A := fun h => Ret (r, h).

Declare Scope py_scope.
Delimit Scope py_scope with py.
Notation "'let*' x ':=' m 'in' k" := (bind m (fun x => k))
  (at level 10, x name, m at level 100, k at level 200) : py_scope.
Notation "'do' m 'in' k" := (bind m (fun _ => k))
  (at level 10, m at level 100, k at level 200) : py_scope.
Open Scope py_scope.

(** A dictionary display whose value is kept by the caller: a new object. *)
Definition alloc (d : gmap string pyval) : M loc :=
  fun h => Ret (Ok (length h), h ++ [d]).

(** [target[key] = v] where [target] is a reference to a dictionary or
    [None]. *)
Definition setitem (target : option loc) (key : string) (v : pyval) : M unit :=
  match target with
  | None =>
      raise (TypeError "'NoneType' object does not support item assignment")
  | Some l =>
      fun h =>
        match h !! l with
        | Some d => Ret (Ok tt, <[l := <[key := v]> d]> h)
        | None => Ret (Err (DanglingReference l), h)
        end
  end.

(** [ts.Spec(tspec)] *)
Definition ts_Spec (doc : pyval) : M Spec :=
  let* h := get_heap in ret (mk_Spec doc h).

(** ** The dataclasses *)

(** A Python class: its name and the names of its proper ancestors. *)
Record pytype : Type := mk_pytype {
  ty_name : string;
  ty_ancestors : list string
}.

(** [issubclass(t, c)] *)
Definition issubclass (t c : pytype) : bool :=
  bool_decide (ty_name t = ty_name c)
  || bool_decide (ty_name c ∈ ty_ancestors t).

Record ParamInfo : Type := mk_ParamInfo {
  name : option string;
  aggregate : option bool;
  tspec : option loc
}.

Record SaveArgs : Type := mk_SaveArgs {
  sa_aggregate : bool;
  sa_dtype : option dtype
}.

(** [SaveArgs()] *)
Definition SaveArgs_default : SaveArgs := mk_SaveArgs false None.

Record RestoreArgs : Type := mk_RestoreArgs {
  lazy : bool;
  restore_type : pytype;
  dtype_ : option dtype
}.

Definition np_ndarray : pytype := mk_pytype "numpy.ndarray" ["object"].

(** [RestoreArgs()] *)
Definition RestoreArgs_default : RestoreArgs :=
  mk_RestoreArgs false np_ndarray None.

(** [ArrayRestoreArgs] extends [RestoreArgs]. *)
Record ArrayRestoreArgs : Type := mk_ArrayRestoreArgs {
  super : RestoreArgs;
  mesh : option Mesh;
  mesh_axes : option PartitionSpec;
  global_shape : option (list Z)
}.

(** What a caller may pass where [RestoreArgs] is expected. *)
Inductive restore_args : Type :=
| Plain (a : RestoreArgs)
| ForArray (a : ArrayRestoreArgs).

Definition as_RestoreArgs (a : restore_args) : RestoreArgs :=
  match a with
  | Plain r => r
  | ForArray r => super r
  end.

(** ** Cast specs *)

(** [tspec['base']] is the dictionary that was passed in, so the assignment
    to [tspec['base']['dtype']] updates the caller's dictionary in place. *)
Definition _get_cast_tspec_serialize {V : Type} `{HasDtype V}
    (tspec : option loc) (value : V) (args : SaveArgs)
    : M (gmap string pyval) :=
  let tspec' : gmap string pyval :=
    <["driver" := VStr "cast"]> {["base" := ref_val tspec]} in
  let tspec' := <["dtype" := VStr (dtype_name (dtype_of value))]> tspec' in
  do match sa_dtype args with
     | None => setitem tspec "dtype" (VStr (dtype_name (dtype_of value)))
     | Some d => setitem tspec "dtype" (VStr (dtype_name d))
     end in
  ret tspec'.

Definition _get_cast_tspec_deserialize (tspec : option loc)
    (args : RestoreArgs) : pyval :=
  match dtype_ args with
  | Some d =>
      VDict (<["dtype" := VStr (dtype_name d)]>
              (<["driver" := VStr "cast"]> {["base" := ref_val tspec]}))
  | None => ref_val tspec
  end.

(** ** What the handlers take from their environment

    [joinpath directory name] is [os.fspath(directory / name)];
    [get_tensorstore_spec] and [_get_metadata] are the functions of that name
    in [jax.experimental.gda_serialization.serialization], each returning a
    new dictionary. *)
Class Environment : Type := {
  joinpath : string -> string -> string;
  get_tensorstore_spec : string -> gmap string pyval;
  _get_metadata : GlobalDeviceArray -> gmap string pyval
}.

(** ** NumpyHandler *)

Module NumpyHandler.
Section methods.
Context `{Environment}.

Definition param_info (directory : string) (name : string) (value : ndarray)
    : M ParamInfo :=
  let path := joinpath directory name in
  let* tspec := alloc (get_tensorstore_spec path) in
  do setitem (Some tspec) "metadata"
       (VDict (<["chunks" := VTuple (nd_shape value)]>
                (<["shape" := VTuple (nd_shape value)]>
                  {["compressor" := VDict {["id" := VStr "gzip"]}]}))) in
  ret (mk_ParamInfo (Some name) None (Some tspec)).

Definition serialize (value : ndarray) (info : ParamInfo)
    (args : option SaveArgs) : M (list Future) :=
  let args := match args with None => SaveArgs_default | Some a => a end in
  let* tspec := _get_cast_tspec_serialize (tspec info) value args in
  let* spec := ts_Spec (VDict tspec) in
  let* t := perform (ts_open spec true true (Some 128%Z)) in
  let* write_future := perform (ts_write t value) in
  do perform (await_future (copy write_future)) in
  ret [commit write_future].

Definition deserialize (info : ParamInfo) (args : option restore_args)
    : M ndarray :=
  let args :=
    match args with
    | None => RestoreArgs_default
    | Some a => as_RestoreArgs a
    end in
  let tspec := _get_cast_tspec_deserialize (tspec info) args in
  let* spec := ts_Spec tspec in
  let* t := perform (ts_open spec false true None) in
  perform (ts_read t).

End methods.
End NumpyHandler.

(** ** ScalarHandler *)

Module ScalarHandler.
Section methods.
Context `{Environment}.

Definition param_info (directory : string) (name : string) (value : Scalar)
    : M ParamInfo :=
  NumpyHandler.param_info directory name (np_asarray value).

Definition serialize (value : Scalar) (info : ParamInfo)
    (args : option SaveArgs) : M (list Future) :=
  let value := np_asarray value in
  NumpyHandler.serialize value info args.

Definition deserialize (info : ParamInfo) (args : option restore_args)
    : M Scalar :=
  let* result := NumpyHandler.deserialize info args in
  if negb (Nat.eqb (ndim result) 0)
  then raise (ValueError "Restored result is not a scalar.")
  else lift (item result).

End methods.
End ScalarHandler.

(** ** ArrayHandler *)

Module ArrayHandler.
Section methods.
Context `{Environment}.

Definition param_info (directory : string) (name : string)
    (value : GlobalDeviceArray) : M ParamInfo :=
  let path := joinpath directory name in
  let* tspec := alloc (get_tensorstore_spec path) in
  let metadata := _get_metadata value in
  do setitem (Some tspec) "metadata" (VDict metadata) in
  do match metadata !! "dtype" with
     | Some _ => setitem (Some tspec) "metadata" (VDict (delete "dtype" metadata))
     | None => raise (KeyError "dtype")
     end in
  ret (mk_ParamInfo (Some name) None (Some tspec)).

Definition serialize (value : GlobalDeviceArray) (info : ParamInfo)
    (args : option SaveArgs) : M (list Future) :=
  let args := match args with None => SaveArgs_default | Some a => a end in
  let* tspec := _get_cast_tspec_serialize (tspec info) value args in
  let commit_futures : list Future := [] in
  let* spec := ts_Spec (VDict tspec) in
  let* appended := perform (async_serialize value spec) in
  ret (commit_futures ++ appended).

Definition deserialize (info : ParamInfo) (args : option restore_args)
    : M GlobalDeviceArray :=
  match args with
  | None =>
      raise (ValueError
        "Must provide ArrayRestoreArgs to restore as GDA or jax.Array.")
  | Some (Plain _) =>
      raise (AttributeError "'RestoreArgs' object has no attribute 'mesh'")
  | Some (ForArray args) =>
      match mesh args, mesh_axes args with
      | Some m, Some axes =>
          let tspec := _get_cast_tspec_deserialize (tspec info) (super args) in
          let s := mk_sharding m axes in
          let* spec := ts_Spec tspec in
          perform (async_deserialize s spec (global_shape args))
      | _, _ =>
          raise (ValueError
            "Sharding of GlobalDeviceArray/Array cannot be None. Provide `mesh` and `mesh_axes`.")
      end
  end.

End methods.
End ArrayHandler.

(** ** The type registry *)

(** A handler object: its class and which instance of the class it is. *)
Inductive TypeHandler : Type :=
| ScalarHandler (id : nat)
| NumpyHandler (id : nat)
| ArrayHandler (id : nat)
| OtherHandler (cls : string) (id : nat).

Definition py_object : pytype := mk_pytype "object" [].
Definition py_int : pytype := mk_pytype "int" ["object"].
Definition py_bool : pytype := mk_pytype "bool" ["int"; "object"].
Definition py_float : pytype := mk_pytype "float" ["object"].
Definition py_str : pytype := mk_pytype "str" ["object"].
Definition np_number : pytype :=
  mk_pytype "numpy.number" ["numpy.generic"; "object"].
Definition np_float32 : pytype :=
  mk_pytype "numpy.float32"
    ["numpy.floating"; "numpy.inexact"; "numpy.number"; "numpy.generic";
     "object"].
Definition DeviceArray : pytype :=
  mk_pytype "jax._src.device_array.DeviceArray" ["object"].
Definition GlobalDeviceArray_type : pytype :=
  mk_pytype "jax.experimental.global_device_array.GlobalDeviceArray"
    ["object"].
Definition jax_Array : pytype := mk_pytype "jax.Array" ["object"].

Definition registry : Type := list ((pytype -> bool) * TypeHandler).

(** The registry as the module defines it; [jax_array] is the value of
    [jax.config.jax_array]. *)
Definition _TYPE_REGISTRY (jax_array : bool) : registry :=
  [ (fun ty => issubclass ty py_int, ScalarHandler 0);
    (fun ty => issubclass ty py_float, ScalarHandler 1);
    (fun ty => issubclass ty np_number, ScalarHandler 2);
    (fun ty => issubclass ty np_ndarray, NumpyHandler 3);
    (fun ty => issubclass ty DeviceArray, NumpyHandler 4);
    (fun ty => issubclass ty GlobalDeviceArray_type, ArrayHandler 5);
    (fun ty => issubclass ty jax_Array && jax_array, ArrayHandler 6) ].

Definition dquote : string := String (Ascii.ascii_of_nat 34) EmptyString.

(** [str(ty)] for a class. *)
Definition str_of_type (ty : pytype) : string :=
  "<class '" +:+ ty_name ty +:+ "'>".

Definition unknown_type_msg (ty : pytype) : string :=
  "Unknown type: " +:+ dquote +:+ str_of_type ty +:+ dquote
  +:+ ". Must register a TypeHandler.".

Definition already_registered_msg (ty : pytype) : string :=
  "A TypeHandler for " +:+ dquote +:+ str_of_type ty +:+ dquote
  +:+ " is already registered.".

Fixpoint get_type_handler (reg : registry) (ty : pytype)
    : result TypeHandler :=
  match reg with
  | [] => Err (ValueError (unknown_type_msg ty))
  | (func, handler) :: rest =>
      if func ty then Ok handler else get_type_handler rest ty
  end.

(** The registry is passed in and handed back; when the call raises, the
    registry handed back is the one passed in. *)
Definition register_type_handler (ty : pytype) (handler : TypeHandler)
    (func : option (pytype -> bool)) (override : bool) (reg : registry)
    : result unit * registry :=
  let func :=
    match func with
    | None => fun t => issubclass t ty
    | Some f => f
    end in
  match
    match get_type_handler reg ty with
    | Ok h => Ok (Some h)
    | Err (ValueError _) => Ok None
    | Err e => Err e
    end
  with
  | Err e => (Err e, reg)
  | Ok existing_handler =>
      if bool_decide (existing_handler <> None) && negb override
      then (Err (ValueError (already_registered_msg ty)), reg)
      else (Ok tt, reg ++ [(func, handler)])
  end.

(** An entry whose predicate does not accept [ty]. *)
Definition rejects (ty : pytype) (entry : (pytype -> bool) * TypeHandler)
    : Prop :=
  entry.1 ty = false.

(** ** Running a handler against a backend *)

(** A backend answers each call from its own state. *)
Definition backend (S : Type) : Type :=
  forall c : call, S -> result (payload c) * S.

(** The outcome, the backend's final state and the calls made, in order. *)
Fixpoint run {S A : Type} (b : backend S) (m : io A) (s : S)
    : A * S * list call :=
  match m with
  | Ret a => (a, s, [])
  | Vis c k =>
      let '(r, s1) := b c s in
      let '(a, s2, calls) := run b (k r) s1 in
      (a, s2, c :: calls)
  end.

Definition is_read (c : call) : bool :=
  match c with
  | ts_read _ | async_deserialize _ _ _ => true
  | _ => false
  end.

(** [lazy] set to [b], every other field kept. *)
Definition set_lazy (b : bool) (a : restore_args) : restore_args :=
  match a with
  | Plain r => Plain (mk_RestoreArgs b (restore_type r) (dtype_ r))
  | ForArray r =>
      ForArray
        (mk_ArrayRestoreArgs
           (mk_RestoreArgs b (restore_type (super r)) (dtype_ (super r)))
           (mesh r) (mesh_axes r) (global_shape r))
  end.

(** The element type the data is stored as. *)
Definition stored_dtype {V : Type} `{HasDtype V} (value : V)
    (args : option SaveArgs) : dtype :=
  match args with
  | Some a =>
      match sa_dtype a with
      | Some d => d
      | None => dtype_of value
      end
  | None => dtype_of value
  end.

(** ** Inputs used in the examples *)

(** Local paths, and the spec JAX builds for a local path. *)
Definition local_files : Environment := {|
  joinpath directory name := directory +:+ "/" +:+ name;
  get_tensorstore_spec path :=
    <["kvstore" := VDict (<["path" := VStr path]> {["driver" := VStr "file"]})]>
      {["driver" := VStr "zarr"]};
  _get_metadata value :=
    <["dtype" := VStr (dtype_name (gda_dtype value))]>
      (<["chunks" := VTuple (gda_shape value)]>
        {["shape" := VTuple (gda_shape value)]})
|}.

Definition example_array : ndarray :=
  mk_ndarray float32 [2; 2]%Z [1; 2; 3; 4]%Z.

Definition example_vector : ndarray := mk_ndarray int64 [1]%Z [42]%Z.

Definition example_scalar : ndarray := mk_ndarray int64 [] [42]%Z.

Definition example_gda : GlobalDeviceArray :=
  mk_gda float32 [2; 2]%Z (mk_sharding (mk_Mesh [0; 1] ["x"]) [Some "x"])
    [1; 2; 3; 4]%Z.

(** A backend without state: every open, write and await succeeds, and a
    read returns the array it was built with. *)
Definition fixed_backend (a : ndarray) : backend unit :=
  fun c s =>
    match c return result (payload c) * unit with
    | ts_open _ _ _ _ => (Ok 0, s)
    | ts_read _ => (Ok a, s)
    | ts_write _ _ => (Ok (mk_WriteFutures 1 2), s)
    | await_future _ => (Ok tt, s)
    | async_serialize _ _ => (Ok [3], s)
    | async_deserialize _ _ _ => (Ok example_gda, s)
    end.

(** A predicate for [bool] alone and one for every [int]. *)
Definition only_bool : pytype -> bool := fun ty => issubclass ty py_bool.
Definition any_int : pytype -> bool := fun ty => issubclass ty py_int.

(** A call that neither creates a store nor writes to one. *)
Definition reads_only (c : call) : bool :=
  match c with
  | ts_open _ create _ _ => negb create
  | ts_read _ | async_deserialize _ _ _ => true
  | _ => false
  end.

(** A backend that answers every call with the exception [e]. *)
Definition refusing_backend (e : exn) : backend unit :=
  fun c s => (Err e, s).

(** An environment whose metadata for a distributed array has no dtype. *)
Definition bare_metadata : Environment := {|
  joinpath directory name := directory +:+ "/" +:+ name;
  get_tensorstore_spec path := {["driver" := VStr "zarr"]};
  _get_metadata value := {["shape" := VTuple (gda_shape value)]}
|}.

(** The classes that the registry of the module tests for before
    [jax.Array]. *)
Definition classes_before_jax_Array : list pytype :=
  [py_int; py_float; np_number; np_ndarray; DeviceArray;
   GlobalDeviceArray_type].

(** * Properties *)

(** Case analysis on what the backend answers to the next call. *)
Ltac answer b :=
  match goal with
  | |- context [b ?c ?s] => destruct (b c s) as [[?|?] ?]
  end; simpl.

(** ** The store *)

Lemma lookup_new (h : heap) (d : gmap string pyval) :
  (h ++ [d]) !! length h = Some d.
Proof.
  rewrite lookup_app_r by lia.
  by rewrite Nat.sub_diag.
Qed.

Lemma insert_new (h : heap) (d d' : gmap string pyval) :
  <[length h := d']> (h ++ [d]) = h ++ [d'].
Proof.
  rewrite insert_app_r_alt by lia.
  by rewrite Nat.sub_diag.
Qed.

Lemma setitem_live (l : loc) (key : string) (v : pyval) (h : heap)
    (d : gmap string pyval) :
  h !! l = Some d ->
  setitem (Some l) key v h = Ret (Ok tt, <[l := <[key := v]> d]> h).
Proof. intros Hl. unfold setitem. by rewrite Hl. Qed.

Lemma setitem_other (l l' : loc) (key : string) (v : pyval) (h : heap)
    (d : gmap string pyval) :
  l <> l' -> (<[l := <[key := v]> d]> h) !! l' = h !! l'.
Proof. intros Hne. by apply list_lookup_insert_ne. Qed.

(** ** Running computations *)

Lemma run_bind {S A B : Type} (b : backend S) (m : io A) (f : A -> io B)
    (s : S) :
  run b (io_bind m f) s =
  let '(a, s1, calls1) := run b m s in
  let '(r, s2, calls2) := run b (f a) s1 in
  (r, s2, calls1 ++ calls2).
Proof.
  revert s. induction m as [a | c k IH]; intros s; simpl.
  - by destruct (run b (f a) s) as [[r s2] calls2].
  - destruct (b c s) as [r s1]. rewrite IH.
    destruct (run b (k r) s1) as [[a s2] calls1].
    by destruct (run b (f a) s2) as [[r' s3] calls2].
Qed.

(** ** Cast specs *)

(** What the builder for serialization returns and does to the store, for a
    [tspec] that is a dictionary. *)
Lemma cast_tspec_serialize_eq {V : Type} `{HasDtype V} (l : loc) (value : V)
    (args : SaveArgs) (h : heap) (base : gmap string pyval) :
  h !! l = Some base ->
  _get_cast_tspec_serialize (Some l) value args h =
  Ret (Ok (<["dtype" := VStr (dtype_name (dtype_of value))]>
            (<["driver" := VStr "cast"]> {["base" := VRef l]})),
       <[l := <["dtype" :=
                  VStr (dtype_name (stored_dtype value (Some args)))]> base]> h).
Proof.
  intros Hl. unfold _get_cast_tspec_serialize, stored_dtype, bind.
  destruct (sa_dtype args) as [d|]; by rewrite (setitem_live _ _ _ _ _ Hl).
Qed.

(** C1, as amended.  For a base spec [l] holding the dictionary [base], the
    builder returns the envelope [{base, driver: "cast", dtype}] whose base
    is [l] itself and whose outer [dtype] is the value's source dtype whether
    or not a cast is requested; the inner [base.dtype] is the source dtype
    when [args.dtype] is unset and the requested cast target when it is
    set. *)
Theorem cast_tspec_serialize_envelope {V : Type} `{HasDtype V} (l : loc)
    (value : V) (args : SaveArgs) (h : heap) (base : gmap string pyval) :
  h !! l = Some base ->
  exists (envelope inner : gmap string pyval) (h' : heap),
    _get_cast_tspec_serialize (Some l) value args h = Ret (Ok envelope, h')
    /\ envelope !! "base" = Some (VRef l)
    /\ envelope !! "driver" = Some (VStr "cast")
    /\ envelope !! "dtype" = Some (VStr (dtype_name (dtype_of value)))
    /\ h' !! l = Some inner
    /\ inner !! "dtype" =
       Some (VStr (dtype_name
         match sa_dtype args with
         | None => dtype_of value
         | Some target => target
         end)).
Proof.
  intros Hl. eexists _, _, _.
  split; [by apply cast_tspec_serialize_eq|].
  repeat split.
  - rewrite list_lookup_insert_eq; [done|]. by eapply lookup_lt_Some.
  - unfold stored_dtype. by rewrite lookup_insert_eq.
Qed.

Lemma cast_tspec_serialize_envelope_witness :
  exists (envelope inner : gmap string pyval) (h' : heap),
    _get_cast_tspec_serialize (Some 0) example_array
      (mk_SaveArgs false (Some bfloat16)) [∅] = Ret (Ok envelope, h')
    /\ envelope !! "base" = Some (VRef 0)
    /\ envelope !! "driver" = Some (VStr "cast")
    /\ envelope !! "dtype" = Some (VStr "float32")
    /\ h' !! 0 = Some inner
    /\ inner !! "dtype" = Some (VStr "bfloat16").
Proof.
  exact (cast_tspec_serialize_envelope 0 example_array
           (mk_SaveArgs false (Some bfloat16)) [∅] ∅ eq_refl).
Defined.

(** C1 as stated fails: with a float32 value and a cast to bfloat16, the
    outer [dtype] is not the cast target and the inner [base.dtype] is not
    the source dtype. *)
Lemma cast_tspec_serialize_counterexample :
  exists (envelope inner : gmap string pyval) (h' : heap),
    _get_cast_tspec_serialize (Some 0) example_array
      (mk_SaveArgs false (Some bfloat16)) [∅] = Ret (Ok envelope, h')
    /\ h' !! 0 = Some inner
    /\ envelope !! "dtype" <> Some (VStr (dtype_name bfloat16))
    /\ inner !! "dtype" <> Some (VStr (dtype_name (nd_dtype example_array))).
Proof.
  eexists _, _, _. split; [reflexivity|]. split; [reflexivity|].
  split; vm_compute; discriminate.
Qed.

(** C8.  Without a [dtype] in the restore arguments the builder for
    deserialization returns the spec it was given, not wrapped; with one it
    returns [{base: spec, driver: "cast", dtype: requested}]. *)
Theorem cast_tspec_deserialize_spec (tspec : option loc) (lazy : bool)
    (restore_type : pytype) :
  _get_cast_tspec_deserialize tspec (mk_RestoreArgs lazy restore_type None)
  = ref_val tspec
  /\ forall requested : dtype,
       exists envelope : gmap string pyval,
         _get_cast_tspec_deserialize tspec
           (mk_RestoreArgs lazy restore_type (Some requested))
         = VDict envelope
         /\ envelope !! "base" = Some (ref_val tspec)
         /\ envelope !! "driver" = Some (VStr "cast")
         /\ envelope !! "dtype" = Some (VStr (dtype_name requested))
         /\ dom envelope = {["base"; "driver"; "dtype"]}.
Proof.
  split; [reflexivity|]. intros requested. eexists. split; [reflexivity|].
  repeat split.
Qed.

(** ** NumpyHandler *)

Section numpy_handler.
Context `{Environment}.

Lemma numpy_param_info_eq (directory name : string) (value : ndarray)
    (h : heap) :
  NumpyHandler.param_info directory name value h =
  Ret (Ok (mk_ParamInfo (Some name) None (Some (length h))),
       h ++ [<["metadata" :=
                 VDict (<["chunks" := VTuple (nd_shape value)]>
                         (<["shape" := VTuple (nd_shape value)]>
                           {["compressor" :=
                               VDict {["id" := VStr "gzip"]}]}))]>
               (get_tensorstore_spec (joinpath directory name))]).
Proof.
  unfold NumpyHandler.param_info, bind, alloc. simpl.
  rewrite lookup_new. simpl.
  by rewrite insert_new.
Qed.

(** C9.  [param_info] of the handler for dense arrays returns a descriptor
    named [name] whose [tspec] is the spec for the path [directory / name]
    with a [metadata] entry in which [chunks] is the whole shape of the
    value, as is [shape], and the compressor is gzip; the handler for scalars
    does the same with the scalar turned into an array. *)
Theorem numpy_param_info_spec (directory name : string) (value : ndarray)
    (h : heap) :
  exists (l : loc) (h' : heap) (metadata : gmap string pyval),
    NumpyHandler.param_info directory name value h =
      Ret (Ok (mk_ParamInfo (Some name) None (Some l)), h')
    /\ h' !! l =
       Some (<["metadata" := VDict metadata]>
               (get_tensorstore_spec (joinpath directory name)))
    /\ metadata !! "chunks" = Some (VTuple (nd_shape value))
    /\ metadata !! "shape" = Some (VTuple (nd_shape value))
    /\ metadata !! "compressor" = Some (VDict {["id" := VStr "gzip"]})
    /\ (forall l' : loc, l' < length h -> h' !! l' = h !! l')
    /\ forall v : Scalar,
         ScalarHandler.param_info directory name v h =
         NumpyHandler.param_info directory name (np_asarray v) h.
Proof.
  eexists _, _, _. split; [apply numpy_param_info_eq|].
  split; [apply lookup_new|].
  repeat split.
  intros l' Hl'. by rewrite lookup_app_l.
Qed.

(** What [serialize] does to the store before its first call, and the calls
    it makes. *)
Lemma numpy_serialize_run {S : Type} (b : backend S) (s : S)
    (value : ndarray) (info : ParamInfo) (args : option SaveArgs)
    (h : heap) (l : loc) (d : gmap string pyval) :
  tspec info = Some l ->
  h !! l = Some d ->
  let h2 :=
    <[l := <["dtype" := VStr (dtype_name (stored_dtype value args))]> d]> h in
  let envelope : gmap string pyval :=
    <["dtype" := VStr (dtype_name (nd_dtype value))]>
      (<["driver" := VStr "cast"]> {["base" := VRef l]}) in
  exists (r : result (list Future)) (s' : S) (calls : list call),
    run b (NumpyHandler.serialize value info args h) s
    = (r, h2, s',
       ts_open (mk_Spec (VDict envelope) h2) true true (Some 128%Z) :: calls).
Proof.
  intros Hinfo Hl h2 envelope. subst h2 envelope.
  unfold NumpyHandler.serialize. rewrite Hinfo. unfold bind at 1.
  rewrite (cast_tspec_serialize_eq _ _ _ _ _ Hl).
  destruct args as [[aggregate [target|]]|]; simpl.
  all: answer b; [|by eexists _, _, _].
  all: answer b; [|by eexists _, _, _].
  all: answer b; by eexists _, _, _.
Qed.

(** [deserialize] never touches the store, and its first call opens the spec
    that [_get_cast_tspec_deserialize] builds, read in the store as it is
    then. *)
Lemma numpy_deserialize_opens {S : Type} (b : backend S) (s : S)
    (info : ParamInfo) (args : option restore_args) (h : heap) :
  exists (r : result ndarray) (s' : S) (calls : list call),
    run b (NumpyHandler.deserialize info args h) s
    = (r, h, s',
       ts_open
         (mk_Spec
            (_get_cast_tspec_deserialize (tspec info)
               match args with
               | None => RestoreArgs_default
               | Some a => as_RestoreArgs a
               end) h) false true None :: calls).
Proof.
  unfold NumpyHandler.deserialize, bind. simpl.
  answer b; [|by eexists _, _, _].
  answer b; by eexists _, _, _.
Qed.

(** C4, as amended.  For the descriptor that [param_info] produces,
    [serialize] updates the descriptor's [tspec] in place: when it returns or
    raises, that dictionary is the one [param_info] built with its ["dtype"]
    entry set to the name of the dtype the data is stored as, and every other
    entry, like every other dictionary, as it was.  The envelope handed to
    the backend holds the descriptor's dictionary itself as its base, and a
    [deserialize] of the same descriptor afterwards opens that dictionary as
    [serialize] left it. *)
Theorem numpy_serialize_sets_dtype_in_place {S : Type} (b : backend S)
    (s : S) (directory name : string) (value : ndarray)
    (args : option SaveArgs) (h : heap) :
  exists (info : ParamInfo) (l : loc) (d : gmap string pyval) (h1 : heap),
    NumpyHandler.param_info directory name value h = Ret (Ok info, h1)
    /\ tspec info = Some l
    /\ h1 !! l = Some d
    /\ let '(r, h2, s', calls) :=
         run b (NumpyHandler.serialize value info args h1) s in
       h2 !! l =
         Some (<["dtype" := VStr (dtype_name (stored_dtype value args))]> d)
       /\ (forall key : string, key <> "dtype" ->
             (h2 !! l) ≫= (.!! key) = d !! key)
       /\ (forall l' : loc, l' <> l -> h2 !! l' = h1 !! l')
       /\ (exists (envelope : gmap string pyval) (rest : list call),
             calls =
               ts_open (mk_Spec (VDict envelope) h2) true true (Some 128%Z)
               :: rest
             /\ envelope !! "base" = Some (VRef l))
       /\ exists (r' : result ndarray) (s'' : S) (rest : list call),
            run b (NumpyHandler.deserialize info None h2) s'
            = (r', h2, s'',
               ts_open (mk_Spec (VRef l) h2) false true None :: rest).
Proof.
  eexists _, _, _, _. split; [apply numpy_param_info_eq|].
  split; [reflexivity|]. split; [apply lookup_new|].
  edestruct (numpy_serialize_run b s value) as (r & s' & calls & ->);
    [reflexivity|apply lookup_new|].
  split; [|split; [|split; [|split]]].
  - rewrite insert_new. apply lookup_new.
  - intros key Hkey. rewrite insert_new, lookup_new. simpl.
    by rewrite lookup_insert_ne.
  - intros l' Hl'. by rewrite list_lookup_insert_ne.
  - eexists _, _. split; reflexivity.
  - apply (numpy_deserialize_opens b s'
             (mk_ParamInfo (Some name) None (Some (length h))) None).
Qed.

End numpy_handler.

(** C4 as stated fails: after [param_info] and [serialize] of a float32
    array under ["/ckpt"], the descriptor's [tspec] is no longer the
    dictionary that [param_info] produced; it has gained a ["dtype"] entry. *)
Lemma numpy_serialize_tspec_counterexample :
  exists (info : ParamInfo) (l : loc) (h1 : heap),
    @NumpyHandler.param_info local_files "/ckpt" "w" example_array []
    = Ret (Ok info, h1)
    /\ tspec info = Some l
    /\ let '(r, h2, s', calls) :=
         run (fixed_backend example_array)
           (NumpyHandler.serialize example_array info None h1) tt in
       r = Ok [2]
       /\ h2 !! l <> h1 !! l
       /\ (h1 !! l) ≫= (.!! "dtype") = None
       /\ (h2 !! l) ≫= (.!! "dtype") = Some (VStr "float32").
Proof.
  eexists _, _, _. split; [reflexivity|]. split; [reflexivity|].
  vm_compute. split; [reflexivity|]. split; [discriminate|]. done.
Qed.

(** ** Lazy restoration *)

Section lazy_flag.

Lemma numpy_deserialize_run {S : Type} (b : backend S) (s : S)
    (info : ParamInfo) (args : option restore_args) (h : heap)
    (value : ndarray) (h' : heap) (s' : S) (calls : list call) :
  run b (NumpyHandler.deserialize info args h) s = (Ok value, h', s', calls) ->
  exists (spec : Spec) (t : TensorStore),
    calls = [ts_open spec false true None; ts_read t].
Proof.
  unfold NumpyHandler.deserialize, bind. simpl.
  answer b; [|intros [=]].
  answer b; intros [=]; subst. by eexists _, _.
Qed.

(** C3, as amended.  No handler's [deserialize] looks at the [lazy] flag:
    with [lazy] true it is the same computation as with [lazy] false.  In
    particular, whenever it returns a value it has made the backend's read
    call before returning. *)
Theorem deserialize_ignores_lazy {S : Type} (b : backend S) (s : S)
    (info : ParamInfo) (args : restore_args) (h : heap) :
  NumpyHandler.deserialize info (Some (set_lazy true args)) h
  = NumpyHandler.deserialize info (Some (set_lazy false args)) h
  /\ ScalarHandler.deserialize info (Some (set_lazy true args)) h
     = ScalarHandler.deserialize info (Some (set_lazy false args)) h
  /\ ArrayHandler.deserialize info (Some (set_lazy true args)) h
     = ArrayHandler.deserialize info (Some (set_lazy false args)) h
  /\ (forall (value : ndarray) (h' : heap) (s' : S) (calls : list call),
        run b (NumpyHandler.deserialize info (Some (set_lazy true args)) h) s
        = (Ok value, h', s', calls) ->
        existsb is_read calls = true)
  /\ (forall (value : Scalar) (h' : heap) (s' : S) (calls : list call),
        run b (ScalarHandler.deserialize info (Some (set_lazy true args)) h) s
        = (Ok value, h', s', calls) ->
        existsb is_read calls = true)
  /\ (forall (value : GlobalDeviceArray) (h' : heap) (s' : S)
        (calls : list call),
        run b (ArrayHandler.deserialize info (Some (set_lazy true args)) h) s
        = (Ok value, h', s', calls) ->
        existsb is_read calls = true).
Proof.
  split; [by destruct args|]. split; [by destruct args|].
  split; [by destruct args|].
  split; [|split].
  - intros value h' s' calls Hrun.
    apply numpy_deserialize_run in Hrun as (spec & t & ->). done.
  - intros value h' s' calls.
    unfold ScalarHandler.deserialize, bind. rewrite run_bind.
    destruct (run b (NumpyHandler.deserialize _ _ h) s)
      as [[[[a|e] h1] s1] calls1] eqn:Hrun; simpl.
    + apply numpy_deserialize_run in Hrun as (spec & t & ->).
      destruct (negb (ndim a =? 0)%nat); simpl; [intros [=]|].
      unfold lift. simpl. intros [=]. by subst.
    + intros [=].
  - intros value h' s' calls. destruct args as [r|a]; simpl; [intros [=]|].
    destruct (mesh a) as [m|], (mesh_axes a) as [axes|]; simpl.
    2-4: intros [=].
    unfold bind. simpl. answer b; intros [=]. by subst.
Qed.

End lazy_flag.

Lemma deserialize_ignores_lazy_witness :
  let info := mk_ParamInfo (Some "w") None (Some 0) in
  let args := Some (Plain (mk_RestoreArgs true np_ndarray None)) in
  run (fixed_backend example_array)
    (NumpyHandler.deserialize info args [∅]) tt
  = (Ok example_array, [∅], tt,
     [ts_open (mk_Spec (VRef 0) [∅]) false true None; ts_read 0])
  /\ existsb is_read
       [ts_open (mk_Spec (VRef 0) [∅]) false true None; ts_read 0] = true.
Proof.
  intros info args. split; [reflexivity|].
  refine (proj1 (proj2 (proj2 (proj2
    (@deserialize_ignores_lazy unit (fixed_backend example_array)
       tt info (Plain RestoreArgs_default) [∅]))))
    example_array [∅] tt _ _).
  reflexivity.
Defined.

(** C3 as stated fails: with [lazy] true, [deserialize] of the handler for
    dense arrays returns the array itself, and the read call has already been
    made when it returns. *)
Lemma deserialize_lazy_counterexample :
  let info := mk_ParamInfo (Some "w") None (Some 0) in
  let args := mk_RestoreArgs true np_ndarray None in
  lazy args = true
  /\ exists calls : list call,
       run (fixed_backend example_array)
         (NumpyHandler.deserialize info (Some (Plain args)) [∅])
         tt
       = (Ok example_array, [∅], tt, calls)
       /\ ts_read 0 ∈ calls.
Proof.
  split; [reflexivity|]. eexists. split; [reflexivity|]. set_solver.
Qed.

(** ** ScalarHandler *)

Lemma item_scalar (a : ndarray) :
  wf_ndarray a -> ndim a = 0 ->
  exists x : Z, nd_data a = [x] /\ item a = Ok (to_python (nd_dtype a) x).
Proof.
  destruct a as [d shape data]. unfold wf_ndarray, ndim, item. simpl.
  intros Hwf Hdim. destruct shape; [|done]. simpl in Hwf.
  destruct data as [|x [|y data]]; simpl in Hwf; try lia.
  by exists x.
Qed.

(** C7.  [deserialize] of the handler for scalars makes the calls that
    [deserialize] of the handler for dense arrays makes and leaves the same
    store and backend state; when that raises, so does it; when that returns
    an array of zero dimensions, it returns the array's [item()], which for a
    well-formed array is its one element as a Python number; when that
    returns an array of any other rank, it raises [ValueError] with the
    message that the restored result is not a scalar. *)
Theorem scalar_deserialize_spec {S : Type} (b : backend S) (s : S)
    (info : ParamInfo) (args : option restore_args) (h : heap) :
  (let '(r, h', s', calls) := run b (NumpyHandler.deserialize info args h) s in
   run b (ScalarHandler.deserialize info args h) s =
   (match r with
    | Ok result =>
        if Nat.eqb (ndim result) 0 then item result
        else Err (ValueError "Restored result is not a scalar.")
    | Err e => Err e
    end, h', s', calls))
  /\ forall result : ndarray,
       wf_ndarray result -> ndim result = 0 ->
       exists x : Z,
         nd_data result = [x]
         /\ item result = Ok (to_python (nd_dtype result) x).
Proof.
  split; [|apply item_scalar].
  unfold ScalarHandler.deserialize, bind. rewrite run_bind.
  destruct (run b (NumpyHandler.deserialize info args h) s)
    as [[[[a|e] h1] s1] calls1]; simpl.
  - destruct (ndim a =? 0)%nat; simpl; by rewrite app_nil_r.
  - by rewrite app_nil_r.
Qed.

Lemma scalar_deserialize_spec_witness :
  run (fixed_backend example_scalar)
    (ScalarHandler.deserialize (mk_ParamInfo (Some "step") None (Some 0))
       None [∅]) tt
  = (Ok (PyInt 42), [∅], tt,
     [ts_open (mk_Spec (VRef 0) [∅]) false true None; ts_read 0])
  /\ exists x : Z,
       nd_data example_scalar = [x]
       /\ item example_scalar = Ok (to_python (nd_dtype example_scalar) x).
Proof.
  split.
  - exact (proj1 (scalar_deserialize_spec (fixed_backend example_scalar) tt
                    (mk_ParamInfo (Some "step") None (Some 0)) None [∅])).
  - exact (proj2 (scalar_deserialize_spec (fixed_backend example_scalar) tt
                    (mk_ParamInfo (Some "step") None (Some 0)) None [∅])
             example_scalar eq_refl eq_refl).
Defined.

(** A stored array with one element is not a scalar. *)
Example scalar_deserialize_vector :
  run (fixed_backend example_vector)
    (ScalarHandler.deserialize (mk_ParamInfo (Some "step") None (Some 0))
       None [∅]) tt
  = (Err (ValueError "Restored result is not a scalar."), [∅], tt,
     [ts_open (mk_Spec (VRef 0) [∅]) false true None; ts_read 0]).
Proof. reflexivity. Qed.

(** ** ArrayHandler *)

(** C6.  [deserialize] of the handler for sharded arrays raises [ValueError]
    when no arguments are given, and raises [ValueError] when arguments of
    class [ArrayRestoreArgs] have no [mesh] or no [mesh_axes], whatever
    their other fields are.  Given arguments of the base class
    [RestoreArgs], which its signature admits and which have no [mesh] at
    all, it raises [AttributeError] and not [ValueError].  In each case it
    raises at once: the store is untouched and no call to the backend is
    made, so no sharding is made up in place of the missing one. *)
Theorem array_deserialize_requires_sharding (info : ParamInfo)
    (args : ArrayRestoreArgs) (plain : RestoreArgs) (h : heap) :
  mesh args = None \/ mesh_axes args = None ->
  ArrayHandler.deserialize info None h =
    Ret (Err (ValueError
      "Must provide ArrayRestoreArgs to restore as GDA or jax.Array."), h)
  /\ ArrayHandler.deserialize info (Some (ForArray args)) h =
    Ret (Err (ValueError
      "Sharding of GlobalDeviceArray/Array cannot be None. Provide `mesh` and `mesh_axes`."),
      h)
  /\ ArrayHandler.deserialize info (Some (Plain plain)) h =
    Ret (Err (AttributeError "'RestoreArgs' object has no attribute 'mesh'"),
      h)
  /\ forall msg : string,
       ArrayHandler.deserialize info (Some (Plain plain)) h
       <> Ret (Err (ValueError msg), h).
Proof.
  intros Hnone. split; [reflexivity|]. split.
  - simpl. destruct Hnone as [-> | ->]; [done|]. by destruct (mesh args).
  - split; [reflexivity|]. intros msg. simpl. unfold raise. by intros [=].
Qed.

Lemma array_deserialize_requires_sharding_witness :
  let info := mk_ParamInfo (Some "w") None (Some 0) in
  let args :=
    mk_ArrayRestoreArgs (mk_RestoreArgs true np_ndarray (Some float32))
      None (Some [Some "x"]) (Some [2; 2]%Z) in
  let plain := mk_RestoreArgs false GlobalDeviceArray_type None in
  (mesh args = None \/ mesh_axes args = None)
  /\ ArrayHandler.deserialize info None [∅] =
     Ret (Err (ValueError
       "Must provide ArrayRestoreArgs to restore as GDA or jax.Array."), [∅])
  /\ ArrayHandler.deserialize info (Some (ForArray args)) [∅] =
     Ret (Err (ValueError
       "Sharding of GlobalDeviceArray/Array cannot be None. Provide `mesh` and `mesh_axes`."),
       [∅])
  /\ ArrayHandler.deserialize info (Some (Plain plain)) [∅] =
     Ret (Err (AttributeError "'RestoreArgs' object has no attribute 'mesh'"),
       [∅])
  /\ forall msg : string,
       ArrayHandler.deserialize info (Some (Plain plain)) [∅]
       <> Ret (Err (ValueError msg), [∅]).
Proof.
  intros info args plain. split; [by left|].
  apply (array_deserialize_requires_sharding info args plain [∅]).
  by left.
Defined.

(** Restore arguments of the base class have no [mesh] attribute. *)
Example array_deserialize_plain_args (info : ParamInfo) (args : RestoreArgs)
    (h : heap) :
  ArrayHandler.deserialize info (Some (Plain args)) h =
  Ret (Err (AttributeError "'RestoreArgs' object has no attribute 'mesh'"), h).
Proof. reflexivity. Qed.

(** With both [mesh] and [mesh_axes] the distributed read is requested. *)
Example array_deserialize_sharded :
  run (fixed_backend example_array)
    (ArrayHandler.deserialize (mk_ParamInfo (Some "w") None (Some 0))
       (Some (ForArray
          (mk_ArrayRestoreArgs RestoreArgs_default
             (Some (mk_Mesh [0; 1] ["x"])) (Some [Some "x"]) None))) [∅]) tt
  = (Ok example_gda, [∅], tt,
     [async_deserialize (mk_sharding (mk_Mesh [0; 1] ["x"]) [Some "x"])
        (mk_Spec (VRef 0) [∅]) None]).
Proof. reflexivity. Qed.

(** ** The registry *)

Lemma get_type_handler_app_reject (pre rest : registry) (ty : pytype) :
  Forall (rejects ty) pre ->
  get_type_handler (pre ++ rest) ty = get_type_handler rest ty.
Proof.
  induction 1 as [|[func handler] pre Hrej _ IH]; [done|].
  unfold rejects in Hrej. simpl in *. by rewrite Hrej.
Qed.

Lemma get_type_handler_first (pre post : registry) (func : pytype -> bool)
    (handler : TypeHandler) (ty : pytype) :
  Forall (rejects ty) pre -> func ty = true ->
  get_type_handler (pre ++ (func, handler) :: post) ty = Ok handler.
Proof.
  intros Hpre Hfunc. rewrite get_type_handler_app_reject by done.
  simpl. by rewrite Hfunc.
Qed.

Lemma get_type_handler_none (reg : registry) (ty : pytype) :
  Forall (rejects ty) reg ->
  get_type_handler reg ty = Err (ValueError (unknown_type_msg ty)).
Proof.
  intros Hrej.
  rewrite <- (app_nil_r reg). by rewrite get_type_handler_app_reject.
Qed.

Lemma get_type_handler_inv (reg : registry) (ty : pytype) :
  match get_type_handler reg ty with
  | Ok handler =>
      exists pre func post,
        reg = pre ++ (func, handler) :: post
        /\ Forall (rejects ty) pre /\ func ty = true
  | Err e => e = ValueError (unknown_type_msg ty) /\ Forall (rejects ty) reg
  end.
Proof.
  induction reg as [|[func handler] reg IH]; simpl; [done|].
  destruct (func ty) eqn:Hfunc.
  - exists [], func, reg. by repeat split.
  - destruct (get_type_handler reg ty) as [h'|e].
    + destruct IH as (pre & f & post & -> & Hpre & Hf).
      exists ((func, handler) :: pre), f, post. repeat split; [|done].
      by constructor.
    + destruct IH as [-> Hrej]. split; [done|]. by constructor.
Qed.

(** C5.  [get_type_handler] goes through the registry in the order of
    registration and returns the handler of the first entry whose predicate
    accepts the type, whatever entries follow it; it raises [ValueError]
    ("Unknown type") exactly when no predicate accepts the type. *)
Theorem get_type_handler_first_match (reg : registry) (ty : pytype) :
  (forall pre func handler post,
     reg = pre ++ (func, handler) :: post ->
     Forall (rejects ty) pre -> func ty = true ->
     get_type_handler reg ty = Ok handler)
  /\ (Forall (rejects ty) reg ->
      get_type_handler reg ty = Err (ValueError (unknown_type_msg ty)))
  /\ match get_type_handler reg ty with
     | Ok handler =>
         exists pre func post,
           reg = pre ++ (func, handler) :: post
           /\ Forall (rejects ty) pre /\ func ty = true
     | Err e =>
         e = ValueError (unknown_type_msg ty) /\ Forall (rejects ty) reg
     end.
Proof.
  split; [|split].
  - intros pre func handler post -> Hpre Hfunc.
    by apply get_type_handler_first.
  - apply get_type_handler_none.
  - apply get_type_handler_inv.
Qed.

(** A predicate for [bool] registered before one for [int]: [bool] resolves
    to the former's handler, [int] to the latter's, [str] to none. *)
Lemma get_type_handler_first_match_witness :
  let reg : registry :=
    [(only_bool, OtherHandler "BoolHandler" 0);
     (any_int, OtherHandler "IntHandler" 1)] in
  get_type_handler reg py_bool = Ok (OtherHandler "BoolHandler" 0)
  /\ get_type_handler reg py_int = Ok (OtherHandler "IntHandler" 1)
  /\ get_type_handler reg py_str = Err (ValueError (unknown_type_msg py_str)).
Proof.
  intros reg. split; [|split].
  - apply (proj1 (get_type_handler_first_match reg py_bool)
             [] only_bool _ [(any_int, OtherHandler "IntHandler" 1)]);
      [reflexivity|constructor|reflexivity].
  - apply (proj1 (get_type_handler_first_match reg py_int)
             [(only_bool, OtherHandler "BoolHandler" 0)] any_int _ []);
      [reflexivity|by repeat constructor|reflexivity].
  - apply (proj1 (proj2 (get_type_handler_first_match reg py_str))).
    by repeat constructor.
Defined.


(** C2.  When a handler already resolves for [ty], registering without
    [override] raises [ValueError] and leaves the registry as it was;
    registering with [override] succeeds, by appending the new entry after
    every existing one, and resolving [ty] afterwards still returns the
    handler that resolved before, not the one just registered. *)
Theorem register_type_handler_existing (reg : registry) (ty : pytype)
    (handler existing : TypeHandler) (func : option (pytype -> bool)) :
  get_type_handler reg ty = Ok existing ->
  register_type_handler ty handler func false reg
  = (Err (ValueError (already_registered_msg ty)), reg)
  /\ exists reg' : registry,
       register_type_handler ty handler func true reg = (Ok tt, reg')
       /\ get_type_handler reg' ty = Ok existing.
Proof.
  intros Hex. unfold register_type_handler. rewrite Hex. simpl.
  split; [done|]. eexists. split; [done|].
  pose proof (get_type_handler_inv reg ty) as Hinv. rewrite Hex in Hinv.
  destruct Hinv as (pre & f & post & -> & Hpre & Hf).
  rewrite <- app_assoc. simpl. by apply get_type_handler_first.
Qed.

Lemma register_type_handler_existing_witness :
  get_type_handler (_TYPE_REGISTRY false) py_int = Ok (ScalarHandler 0)
  /\ register_type_handler py_int (NumpyHandler 7) None false
       (_TYPE_REGISTRY false)
     = (Err (ValueError (already_registered_msg py_int)),
        _TYPE_REGISTRY false)
  /\ exists reg' : registry,
       register_type_handler py_int (NumpyHandler 7) None true
         (_TYPE_REGISTRY false) = (Ok tt, reg')
       /\ get_type_handler reg' py_int = Ok (ScalarHandler 0).
Proof.
  split; [reflexivity|].
  apply (register_type_handler_existing (_TYPE_REGISTRY false) py_int
           (NumpyHandler 7) (ScalarHandler 0) None).
  reflexivity.
Defined.

(** * Further properties of the registry *)

Lemma get_type_handler_app (reg extra : registry) (ty : pytype) :
  get_type_handler (reg ++ extra) ty =
  match get_type_handler reg ty with
  | Ok handler => Ok handler
  | Err _ => get_type_handler extra ty
  end.
Proof.
  induction reg as [|[func handler] reg IH]; simpl; [done|].
  by destruct (func ty).
Qed.

Lemma get_type_handler_err (reg : registry) (ty : pytype) (e : exn) :
  get_type_handler reg ty = Err e -> e = ValueError (unknown_type_msg ty).
Proof.
  intros Herr. pose proof (get_type_handler_inv reg ty) as Hinv.
  rewrite Herr in Hinv. by destruct Hinv.
Qed.

Lemma issubclass_refl (ty : pytype) : issubclass ty ty = true.
Proof. unfold issubclass. by rewrite bool_decide_eq_true_2. Qed.

(** What a call that does not raise has done to the registry. *)
Lemma register_type_handler_ok (ty : pytype) (handler : TypeHandler)
    (func : option (pytype -> bool)) (override : bool) (reg reg' : registry) :
  register_type_handler ty handler func override reg = (Ok tt, reg') ->
  reg' = reg ++ [(match func with
                  | None => fun t => issubclass t ty
                  | Some f => f
                  end, handler)].
Proof.
  unfold register_type_handler.
  destruct (get_type_handler reg ty) as [h|e] eqn:Hget.
  - simpl. destruct override; simpl; by intros [=].
  - apply get_type_handler_err in Hget as ->. simpl. by intros [=].
Qed.

(** What registering does when no handler resolves for the type. *)
Lemma register_type_handler_unknown (ty : pytype) (handler : TypeHandler)
    (func : option (pytype -> bool)) (override : bool) (reg : registry)
    (e : exn) :
  get_type_handler reg ty = Err e ->
  register_type_handler ty handler func override reg =
  (Ok tt, reg ++ [(match func with
                   | None => fun t => issubclass t ty
                   | Some f => f
                   end, handler)]).
Proof.
  intros Hget. unfold register_type_handler.
  rewrite Hget. by apply get_type_handler_err in Hget as ->.
Qed.

(** X1.  Resolution in a registry followed by further entries is resolution
    in the registry when that finds a handler, and resolution in the further
    entries otherwise; so entries that are appended never change the handler
    of a type that already resolves. *)
Theorem get_type_handler_append (reg extra : registry) (ty : pytype) :
  get_type_handler (reg ++ extra) ty =
    match get_type_handler reg ty with
    | Ok handler => Ok handler
    | Err _ => get_type_handler extra ty
    end
  /\ forall handler : TypeHandler,
       get_type_handler reg ty = Ok handler ->
       get_type_handler (reg ++ extra) ty = Ok handler.
Proof.
  split; [apply get_type_handler_app|].
  intros handler Hget. by rewrite get_type_handler_app, Hget.
Qed.

Lemma get_type_handler_append_witness :
  get_type_handler
    (_TYPE_REGISTRY false ++ [(any_int, OtherHandler "IntHandler" 7)]) py_bool
  = Ok (ScalarHandler 0).
Proof.
  apply (proj2 (get_type_handler_append (_TYPE_REGISTRY false)
                  [(any_int, OtherHandler "IntHandler" 7)] py_bool)).
  reflexivity.
Defined.

(** X2.  A registration that does not raise adds one entry at the end of the
    registry and keeps every entry that was there, and every type that
    resolved before it resolves to the same handler after it. *)
Theorem register_type_handler_frame (ty : pytype) (handler : TypeHandler)
    (func : option (pytype -> bool)) (override : bool) (reg reg' : registry)
    (ty' : pytype) (handler' : TypeHandler) :
  register_type_handler ty handler func override reg = (Ok tt, reg') ->
  get_type_handler reg ty' = Ok handler' ->
  length reg' = S (length reg)
  /\ take (length reg) reg' = reg
  /\ (exists f : pytype -> bool, last reg' = Some (f, handler))
  /\ get_type_handler reg' ty' = Ok handler'.
Proof.
  intros Hreg Hget. apply register_type_handler_ok in Hreg as ->.
  split; [rewrite length_app; simpl; lia|].
  split; [by rewrite take_app_length|].
  split; [eexists; by rewrite last_snoc|].
  by rewrite get_type_handler_app, Hget.
Qed.

Lemma register_type_handler_frame_witness :
  let reg' :=
    _TYPE_REGISTRY false ++ [(fun t => issubclass t py_str, OtherHandler "StrHandler" 7)] in
  length reg' = 8
  /\ take 7 reg' = _TYPE_REGISTRY false
  /\ (exists f : pytype -> bool, last reg' = Some (f, OtherHandler "StrHandler" 7))
  /\ get_type_handler reg' np_float32 = Ok (ScalarHandler 2).
Proof.
  exact (register_type_handler_frame py_str (OtherHandler "StrHandler" 7)
           None false (_TYPE_REGISTRY false) _ np_float32 (ScalarHandler 2)
           eq_refl eq_refl).
Defined.

(** X3.  When no handler resolves for a type, registering it with the
    default predicate succeeds whether or not [override] is given, and the
    type resolves to the registered handler afterwards. *)
Theorem register_type_handler_new (ty : pytype) (handler : TypeHandler)
    (override : bool) (reg : registry) (e : exn) :
  get_type_handler reg ty = Err e ->
  exists reg' : registry,
    register_type_handler ty handler None override reg = (Ok tt, reg')
    /\ get_type_handler reg' ty = Ok handler.
Proof.
  intros Hget. eexists. split; [by eapply register_type_handler_unknown|].
  rewrite get_type_handler_app, Hget. simpl. by rewrite issubclass_refl.
Qed.

Lemma register_type_handler_new_witness :
  exists reg' : registry,
    register_type_handler py_str (OtherHandler "StrHandler" 7) None false
      (_TYPE_REGISTRY false) = (Ok tt, reg')
    /\ get_type_handler reg' py_str = Ok (OtherHandler "StrHandler" 7).
Proof.
  exact (register_type_handler_new py_str (OtherHandler "StrHandler" 7) false
           (_TYPE_REGISTRY false) _ eq_refl).
Defined.

(** X4.  An existing registration is detected by resolving the type, not by
    remembering which types were registered: when the predicate given does
    not accept the type being registered, the call succeeds, the type is
    still unknown afterwards, and registering it again without [override]
    succeeds again. *)
Theorem register_type_handler_rejecting_predicate (ty : pytype)
    (handler handler2 : TypeHandler) (func : pytype -> bool)
    (override : bool) (reg : registry) (e : exn) :
  get_type_handler reg ty = Err e ->
  func ty = false ->
  exists reg' reg'' : registry,
    register_type_handler ty handler (Some func) override reg = (Ok tt, reg')
    /\ get_type_handler reg' ty = Err (ValueError (unknown_type_msg ty))
    /\ register_type_handler ty handler2 (Some func) false reg'
       = (Ok tt, reg'')
    /\ length reg'' = S (S (length reg)).
Proof.
  intros Hget Hfunc.
  assert (Hget' : get_type_handler (reg ++ [(func, handler)]) ty
                  = Err (ValueError (unknown_type_msg ty))).
  { rewrite get_type_handler_app, Hget. simpl. by rewrite Hfunc. }
  eexists _, _.
  split; [by eapply (register_type_handler_unknown _ _ (Some func))|].
  split; [done|].
  split; [by eapply (register_type_handler_unknown _ _ (Some func))|].
  rewrite !length_app. simpl. lia.
Qed.

Lemma register_type_handler_rejecting_predicate_witness :
  exists reg' reg'' : registry,
    register_type_handler py_str (OtherHandler "StrHandler" 7)
      (Some any_int) false (_TYPE_REGISTRY false) = (Ok tt, reg')
    /\ get_type_handler reg' py_str
       = Err (ValueError (unknown_type_msg py_str))
    /\ register_type_handler py_str (OtherHandler "StrHandler" 8)
         (Some any_int) false reg' = (Ok tt, reg'')
    /\ length reg'' = 9.
Proof.
  exact (register_type_handler_rejecting_predicate py_str
           (OtherHandler "StrHandler" 7) (OtherHandler "StrHandler" 8)
           any_int false (_TYPE_REGISTRY false) _ eq_refl eq_refl).
Defined.

(** X5.  Once a class has been registered with the default predicate, each
    of its subclasses resolves, so registering a subclass without [override]
    raises [ValueError] and leaves the registry as it is. *)
Theorem register_type_handler_subclass (base sub : pytype)
    (handler handler' : TypeHandler) (func : option (pytype -> bool))
    (override : bool) (reg reg' : registry) :
  register_type_handler base handler None override reg = (Ok tt, reg') ->
  issubclass sub base = true ->
  (exists existing : TypeHandler, get_type_handler reg' sub = Ok existing)
  /\ register_type_handler sub handler' func false reg'
     = (Err (ValueError (already_registered_msg sub)), reg').
Proof.
  intros Hreg Hsub. apply register_type_handler_ok in Hreg as ->.
  assert (Hres : exists existing,
             get_type_handler
               (reg ++ [(fun t => issubclass t base, handler)]) sub
             = Ok existing).
  { rewrite get_type_handler_app.
    destruct (get_type_handler reg sub) as [h|e]; [by eexists|].
    simpl. rewrite Hsub. by eexists. }
  split; [done|]. destruct Hres as [existing Hres].
  unfold register_type_handler. by rewrite Hres.
Qed.

Lemma register_type_handler_subclass_witness :
  let reg' :=
    _TYPE_REGISTRY false
    ++ [(fun t => issubclass t py_object, OtherHandler "AnyHandler" 7)] in
  (exists existing : TypeHandler, get_type_handler reg' py_str = Ok existing)
  /\ register_type_handler py_str (OtherHandler "StrHandler" 8) None false reg'
     = (Err (ValueError (already_registered_msg py_str)), reg').
Proof.
  exact (register_type_handler_subclass py_object py_str
           (OtherHandler "AnyHandler" 7) (OtherHandler "StrHandler" 8) None
           false (_TYPE_REGISTRY false) _ eq_refl eq_refl).
Defined.

(** X6.  In the registry of the module, a type that is a subclass of none of
    the six classes tested before [jax.Array] resolves to the last entry's
    [ArrayHandler] when it is a subclass of [jax.Array] and
    [jax.config.jax_array] is set, and is an unknown type otherwise. *)
Theorem jax_Array_needs_flag (ty : pytype) (jax_array : bool) :
  Forall (fun c => issubclass ty c = false) classes_before_jax_Array ->
  get_type_handler (_TYPE_REGISTRY jax_array) ty =
  if issubclass ty jax_Array && jax_array
  then Ok (ArrayHandler 6)
  else Err (ValueError (unknown_type_msg ty)).
Proof.
  intros Hnone. unfold classes_before_jax_Array in Hnone.
  repeat (apply Forall_cons in Hnone as [? Hnone]).
  unfold _TYPE_REGISTRY, get_type_handler.
  repeat match goal with H : issubclass ty _ = false |- _ =>
    rewrite H; clear H end.
  done.
Qed.

Lemma jax_Array_needs_flag_witness :
  get_type_handler (_TYPE_REGISTRY false) jax_Array
  = Err (ValueError (unknown_type_msg jax_Array))
  /\ get_type_handler (_TYPE_REGISTRY true) jax_Array = Ok (ArrayHandler 6).
Proof.
  split.
  - apply (jax_Array_needs_flag jax_Array false). by repeat constructor.
  - apply (jax_Array_needs_flag jax_Array true). by repeat constructor.
Defined.

(** * Further properties of the handlers *)

(** Use of a hypothesis [Hcall] that gives the backend's answer to the next
    call. *)
Ltac refused b Hcall :=
  match goal with
  | |- context [b ?c ?s] =>
      let H := fresh in
      assert (H : b c s = (Err _, _)) by exact Hcall;
      rewrite H; simpl
  end.

(** Case analysis on what the backend answers to the next call, keeping
    the answer as a hypothesis. *)
Ltac answered b :=
  match goal with
  | |- context [b ?c ?s] =>
      let E := fresh "Hcall" in
      destruct (b c s) as [[?|?] ?] eqn:E
  end; simpl.

(** ** Writing a dense array *)

(** The calls of a [serialize] that returns, with the value that is
    written. *)
Lemma numpy_serialize_calls {S : Type} (b : backend S) (s : S)
    (value : ndarray) (info : ParamInfo) (args : option SaveArgs) (h : heap)
    (futures : list Future) (h' : heap) (s' : S) (calls : list call) :
  run b (NumpyHandler.serialize value info args h) s
  = (Ok futures, h', s', calls) ->
  exists (spec : Spec) (t : TensorStore) (w : WriteFutures),
    calls = [ts_open spec true true (Some 128%Z); ts_write t value;
             await_future (copy w)]
    /\ futures = [commit w].
Proof.
  unfold NumpyHandler.serialize, _get_cast_tspec_serialize, bind, setitem.
  destruct (tspec info) as [l|].
  - destruct args as [[aggregate [target|]]|]; simpl.
    all: destruct (h !! l) as [d|]; simpl; [|intros [=]].
    all: answer b; [|intros [=]].
    all: answer b; [|intros [=]].
    all: answer b; intros [=]; subst; by eexists _, _, _.
  - destruct args as [[aggregate [target|]]|]; simpl; intros [=].
Qed.

(** X7.  When [serialize] of the handler for dense arrays returns, it has
    made three calls, in this order: it opened, for creation and with the
    limit of 128 on file I/O, the cast envelope around the descriptor's
    [tspec]; it wrote the whole value to the store that this open answered
    with; and it awaited the copy future that this write answered with.  It
    returns one future, the commit future of that same write, and has made
    no call to await it. *)
Theorem numpy_serialize_success {S : Type} (b : backend S) (s : S)
    (value : ndarray) (info : ParamInfo) (args : option SaveArgs) (h : heap)
    (futures : list Future) (h' : heap) (s' : S) (calls : list call) :
  run b (NumpyHandler.serialize value info args h) s
  = (Ok futures, h', s', calls) ->
  exists (l : loc) (spec : Spec) (t : TensorStore) (w : WriteFutures)
         (s1 s2 : S),
    tspec info = Some l
    /\ spec =
       mk_Spec
         (VDict (<["dtype" := VStr (dtype_name (nd_dtype value))]>
                  (<["driver" := VStr "cast"]> {["base" := VRef l]}))) h'
    /\ b (ts_open spec true true (Some 128%Z)) s = (Ok t, s1)
    /\ b (ts_write t value) s1 = (Ok w, s2)
    /\ b (await_future (copy w)) s2 = (Ok tt, s')
    /\ calls = [ts_open spec true true (Some 128%Z); ts_write t value;
                await_future (copy w)]
    /\ futures = [commit w].
Proof.
  unfold NumpyHandler.serialize, _get_cast_tspec_serialize, bind, setitem.
  destruct (tspec info) as [l|];
    [|destruct args as [[aggregate [target|]]|]; simpl; intros [=]].
  destruct args as [[aggregate [target|]]|]; simpl.
  all: destruct (h !! l) as [d|]; simpl; [|intros [=]].
  all: answered b; [|intros [=]].
  all: answered b; [|intros [=]].
  all: answered b; intros [=]; subst.
  all: match goal with u : payload (await_future _) |- _ => destruct u end.
  all: eexists l, _, _, _, _, _.
  all: split; [reflexivity|]; split; [reflexivity|].
  all: split; [eassumption|]; split; [eassumption|].
  all: split; [eassumption|]; split; reflexivity.
Qed.

Lemma numpy_serialize_success_witness :
  let b := fixed_backend example_array in
  let info := mk_ParamInfo (Some "w") None (Some 0) in
  exists (l : loc) (spec : Spec) (t : TensorStore) (w : WriteFutures)
         (s1 s2 : unit),
    tspec info = Some l
    /\ spec =
       mk_Spec
         (VDict (<["dtype" := VStr (dtype_name (nd_dtype example_array))]>
                  (<["driver" := VStr "cast"]> {["base" := VRef l]})))
         [{["dtype" := VStr "float32"]}]
    /\ b (ts_open spec true true (Some 128%Z)) tt = (Ok t, s1)
    /\ b (ts_write t example_array) s1 = (Ok w, s2)
    /\ b (await_future (copy w)) s2 = (Ok tt, tt)
    /\ [ts_open
          (mk_Spec
             (VDict (<["dtype" := VStr "float32"]>
                      (<["driver" := VStr "cast"]> {["base" := VRef 0]})))
             [{["dtype" := VStr "float32"]}]) true true (Some 128%Z);
        ts_write 0 example_array; await_future 1]
       = [ts_open spec true true (Some 128%Z); ts_write t example_array;
          await_future (copy w)]
    /\ [2] = [commit w].
Proof.
  exact (numpy_serialize_success (fixed_backend example_array) tt
           example_array (mk_ParamInfo (Some "w") None (Some 0)) None [∅]
           [2] _ tt _ eq_refl).
Defined.

(** X8.  On a descriptor that has no [tspec], [serialize] of each of the
    three handlers raises [TypeError] before any call to the backend and
    leaves the store as it was. *)
Theorem serialize_without_tspec {S : Type} (b : backend S) (s : S)
    (name : option string) (aggregate : option bool)
    (args : option SaveArgs) (h : heap) (value : ndarray) (number : Scalar)
    (array : GlobalDeviceArray) :
  let info := mk_ParamInfo name aggregate None in
  let raised {A : Type} : result A :=
    Err (TypeError "'NoneType' object does not support item assignment") in
  run b (NumpyHandler.serialize value info args h) s = (raised, h, s, [])
  /\ run b (ScalarHandler.serialize number info args h) s = (raised, h, s, [])
  /\ run b (ArrayHandler.serialize array info args h) s = (raised, h, s, []).
Proof. by destruct args as [[flag [target|]]|]. Qed.

(** X9.  When Tensorstore refuses to open the spec, [serialize] of the
    handler for dense arrays raises what Tensorstore raised and writes
    nothing: the open is its only call.  The descriptor's [tspec] has its
    ["dtype"] entry set by then. *)
Theorem numpy_serialize_open_refused {S : Type} (b : backend S) (s s1 : S)
    (value : ndarray) (info : ParamInfo) (args : option SaveArgs) (h : heap)
    (l : loc) (d : gmap string pyval) (e : exn) :
  tspec info = Some l ->
  h !! l = Some d ->
  let h2 :=
    <[l := <["dtype" := VStr (dtype_name (stored_dtype value args))]> d]> h in
  let opening :=
    ts_open
      (mk_Spec
         (VDict (<["dtype" := VStr (dtype_name (nd_dtype value))]>
                  (<["driver" := VStr "cast"]> {["base" := VRef l]}))) h2)
      true true (Some 128%Z) in
  b opening s = (Err e, s1) ->
  run b (NumpyHandler.serialize value info args h) s
  = (Err e, h2, s1, [opening]).
Proof.
  intros Hinfo Hl h2 opening Hopen. subst h2 opening.
  unfold NumpyHandler.serialize. rewrite Hinfo. unfold bind at 1.
  rewrite (cast_tspec_serialize_eq _ _ _ _ _ Hl).
  destruct args as [[aggregate [target|]]|]; simpl.
  all: refused b Hopen; reflexivity.
Qed.

Lemma numpy_serialize_open_refused_witness :
  run (refusing_backend (BackendError "permission denied"))
    (NumpyHandler.serialize example_array
       (mk_ParamInfo (Some "w") None (Some 0)) None [∅]) tt
  = (Err (BackendError "permission denied"),
     [{["dtype" := VStr "float32"]}], tt,
     [ts_open
        (mk_Spec
           (VDict (<["dtype" := VStr "float32"]>
                    (<["driver" := VStr "cast"]> {["base" := VRef 0]})))
           [{["dtype" := VStr "float32"]}]) true true (Some 128%Z)]).
Proof.
  exact (numpy_serialize_open_refused
           (refusing_backend (BackendError "permission denied")) tt tt
           example_array (mk_ParamInfo (Some "w") None (Some 0)) None [∅]
           0 ∅ _ eq_refl eq_refl eq_refl).
Defined.

(** ** Reading *)

(** X10.  When Tensorstore refuses to open the spec, [deserialize] of the
    handler for dense arrays raises what Tensorstore raised without
    attempting a read. *)
Theorem numpy_deserialize_open_refused {S : Type} (b : backend S) (s s1 : S)
    (info : ParamInfo) (args : option restore_args) (h : heap) (e : exn) :
  let opening :=
    ts_open
      (mk_Spec
         (_get_cast_tspec_deserialize (tspec info)
            match args with
            | None => RestoreArgs_default
            | Some a => as_RestoreArgs a
            end) h) false true None in
  b opening s = (Err e, s1) ->
  run b (NumpyHandler.deserialize info args h) s = (Err e, h, s1, [opening]).
Proof.
  intros opening Hopen. subst opening.
  unfold NumpyHandler.deserialize, bind. simpl.
  refused b Hopen; reflexivity.
Qed.

Lemma numpy_deserialize_open_refused_witness :
  run (refusing_backend (BackendError "not found"))
    (NumpyHandler.deserialize (mk_ParamInfo (Some "w") None (Some 0)) None
       [∅]) tt
  = (Err (BackendError "not found"), [∅], tt,
     [ts_open (mk_Spec (VRef 0) [∅]) false true None]).
Proof.
  exact (numpy_deserialize_open_refused
           (refusing_backend (BackendError "not found")) tt tt
           (mk_ParamInfo (Some "w") None (Some 0)) None [∅] _ eq_refl).
Defined.

(** X11.  [deserialize] of each of the three handlers leaves the store as it
    was, and each call it makes is a read or an open without creation:
    restoring never creates a store, writes to one or awaits a write. *)
Theorem deserialize_reads_only {S : Type} (b : backend S) (s : S)
    (info : ParamInfo) (args : option restore_args) (h : heap) :
  (let '(r, h', s', calls) := run b (NumpyHandler.deserialize info args h) s in
   h' = h /\ forallb reads_only calls = true)
  /\ (let '(r, h', s', calls) :=
        run b (ScalarHandler.deserialize info args h) s in
      h' = h /\ forallb reads_only calls = true)
  /\ (let '(r, h', s', calls) :=
        run b (ArrayHandler.deserialize info args h) s in
      h' = h /\ forallb reads_only calls = true).
Proof.
  assert (Hnumpy : forall r h' s' calls,
            run b (NumpyHandler.deserialize info args h) s
            = (r, h', s', calls) ->
            h' = h /\ forallb reads_only calls = true).
  { intros r h' s' calls.
    unfold NumpyHandler.deserialize, bind. simpl.
    answer b; [|by intros [=]; subst].
    answer b; by intros [=]; subst. }
  split; [|split].
  - destruct (run b (NumpyHandler.deserialize info args h) s)
      as [[[r h'] s'] calls]. by apply (Hnumpy r h' s' calls).
  - unfold ScalarHandler.deserialize, bind. rewrite run_bind.
    destruct (run b (NumpyHandler.deserialize info args h) s)
      as [[[[a|e] h1] s1] calls1].
    all: destruct (Hnumpy _ _ _ _ eq_refl) as [-> Hcalls]; simpl.
    + destruct (negb (ndim a =? 0)%nat); simpl; by rewrite app_nil_r.
    + by rewrite app_nil_r.
  - destruct args as [[r|a]|]; simpl; [done| |done].
    destruct (mesh a) as [m|], (mesh_axes a) as [axes|]; simpl; try done.
    unfold bind. simpl. by answer b.
Qed.

(** X12.  Restore arguments reach [deserialize] of the handler for dense
    arrays, and of the handler for scalars, through their [dtype] alone:
    [restore_type], [lazy], and whether they are [RestoreArgs] or
    [ArrayRestoreArgs] make no difference, and no arguments at all are the
    same as arguments without a [dtype]. *)
Theorem numpy_deserialize_depends_on_dtype (info : ParamInfo)
    (args args' : restore_args) (h : heap) :
  dtype_ (as_RestoreArgs args) = dtype_ (as_RestoreArgs args') ->
  NumpyHandler.deserialize info (Some args) h
  = NumpyHandler.deserialize info (Some args') h
  /\ ScalarHandler.deserialize info (Some args) h
     = ScalarHandler.deserialize info (Some args') h
  /\ (dtype_ (as_RestoreArgs args) = None ->
      NumpyHandler.deserialize info (Some args) h
      = NumpyHandler.deserialize info None h).
Proof.
  intros Hdtype.
  assert (Hnumpy : NumpyHandler.deserialize info (Some args) h
                   = NumpyHandler.deserialize info (Some args') h).
  { unfold NumpyHandler.deserialize, _get_cast_tspec_deserialize.
    by rewrite Hdtype. }
  split; [done|]. split.
  - unfold ScalarHandler.deserialize, bind. by rewrite Hnumpy.
  - intros Hnone.
    unfold NumpyHandler.deserialize, _get_cast_tspec_deserialize.
    by rewrite Hnone.
Qed.

Lemma numpy_deserialize_depends_on_dtype_witness :
  let info := mk_ParamInfo (Some "w") None (Some 0) in
  let plain := Plain (mk_RestoreArgs false np_ndarray None) in
  let sharded :=
    ForArray (mk_ArrayRestoreArgs (mk_RestoreArgs true py_int None)
                (Some (mk_Mesh [0] ["x"])) None None) in
  NumpyHandler.deserialize info (Some plain) [∅]
  = NumpyHandler.deserialize info (Some sharded) [∅]
  /\ ScalarHandler.deserialize info (Some plain) [∅]
     = ScalarHandler.deserialize info (Some sharded) [∅]
  /\ (dtype_ (as_RestoreArgs plain) = None ->
      NumpyHandler.deserialize info (Some plain) [∅]
      = NumpyHandler.deserialize info None [∅]).
Proof.
  intros info plain sharded.
  exact (numpy_deserialize_depends_on_dtype info plain sharded [∅] eq_refl).
Defined.

(** ** Scalars *)

(** X13.  When [serialize] of the handler for scalars returns, the value it
    has written is the scalar as an array of zero dimensions holding one
    element. *)
Theorem scalar_serialize_writes_array {S : Type} (b : backend S) (s : S)
    (value : Scalar) (info : ParamInfo) (args : option SaveArgs) (h : heap)
    (futures : list Future) (h' : heap) (s' : S) (calls : list call) :
  run b (ScalarHandler.serialize value info args h) s
  = (Ok futures, h', s', calls) ->
  exists (t : TensorStore) (written : ndarray),
    ts_write t written ∈ calls
    /\ written = np_asarray value
    /\ ndim written = 0
    /\ length (nd_data written) = 1.
Proof.
  intros Hrun. unfold ScalarHandler.serialize in Hrun.
  apply numpy_serialize_calls in Hrun as (spec & t & w & -> & _).
  exists t, (np_asarray value).
  split; [set_solver|]. by destruct value.
Qed.

Lemma scalar_serialize_writes_array_witness :
  exists (t : TensorStore) (written : ndarray),
    ts_write t written
    ∈ [ts_open
         (mk_Spec
            (VDict (<["dtype" := VStr "int64"]>
                     (<["driver" := VStr "cast"]> {["base" := VRef 0]})))
            [{["dtype" := VStr "int64"]}]) true true (Some 128%Z);
       ts_write 0 example_scalar; await_future 1]
    /\ written = np_asarray (PyInt 42)
    /\ ndim written = 0
    /\ length (nd_data written) = 1.
Proof.
  exact (scalar_serialize_writes_array (fixed_backend example_array) tt
           (PyInt 42) (mk_ParamInfo (Some "step") None (Some 0)) None [∅]
           [2] _ tt _ eq_refl).
Defined.

(** X14.  When the array that comes back from the store is the array that
    the handler for scalars writes for a scalar, [deserialize] of that
    handler returns the scalar as a Python number: a [bool], an [int] and a
    [float] come back as they were, a NumPy number as the Python number of
    its kind. *)
Theorem scalar_round_trip {S : Type} (b : backend S) (s : S)
    (value : Scalar) (info : ParamInfo) (args : option restore_args)
    (h h' : heap) (s' : S) (calls : list call) :
  run b (NumpyHandler.deserialize info args h) s
  = (Ok (np_asarray value), h', s', calls) ->
  run b (ScalarHandler.deserialize info args h) s
  = (Ok match value with
        | NpNumber d x => to_python d x
        | _ => value
        end, h', s', calls).
Proof.
  intros Hrun. unfold ScalarHandler.deserialize, bind.
  rewrite run_bind, Hrun.
  destruct value as [[|]|n|x|d x]; simpl; by rewrite app_nil_r.
Qed.

Lemma scalar_round_trip_witness :
  run (fixed_backend (np_asarray (PyBool true)))
    (ScalarHandler.deserialize (mk_ParamInfo (Some "flag") None (Some 0))
       None [∅]) tt
  = (Ok (PyBool true), [∅], tt,
     [ts_open (mk_Spec (VRef 0) [∅]) false true None; ts_read 0]).
Proof.
  exact (scalar_round_trip (fixed_backend (np_asarray (PyBool true))) tt
           (PyBool true) (mk_ParamInfo (Some "flag") None (Some 0)) None
           [∅] _ tt _ eq_refl).
Defined.

(** ** The descriptor across calls *)

(** A cast to the dtype that the value already has is the same computation
    as no cast, whatever [aggregate] is, and [serialize] without arguments
    is [serialize] with [SaveArgs()]. *)
Example numpy_serialize_cast_to_own_dtype (value : ndarray)
    (info : ParamInfo) (aggregate : bool) (h : heap) :
  NumpyHandler.serialize value info
    (Some (mk_SaveArgs aggregate (Some (nd_dtype value)))) h
  = NumpyHandler.serialize value info None h
  /\ NumpyHandler.serialize value info
       (Some (mk_SaveArgs aggregate None)) h
     = NumpyHandler.serialize value info None h
  /\ NumpyHandler.serialize value info (Some SaveArgs_default) h
     = NumpyHandler.serialize value info None h.
Proof. by repeat split. Qed.

(** X15.  Serializing twice through the same descriptor leaves the store as
    one serialization with the later value and arguments would: the second
    call overwrites the ["dtype"] entry that the first one set, and nothing
    of the first call remains in the descriptor's [tspec]. *)
Theorem numpy_serialize_twice {S : Type} (b : backend S) (s : S)
    (value1 value2 : ndarray) (info : ParamInfo)
    (args1 args2 : option SaveArgs) (h : heap) (l : loc)
    (d : gmap string pyval) :
  tspec info = Some l ->
  h !! l = Some d ->
  let '(r1, h1, s1, calls1) :=
    run b (NumpyHandler.serialize value1 info args1 h) s in
  let '(r2, h2, s2, calls2) :=
    run b (NumpyHandler.serialize value2 info args2 h1) s1 in
  h2 = <[l := <["dtype" := VStr (dtype_name (stored_dtype value2 args2))]> d]>
         h.
Proof.
  intros Hinfo Hl.
  destruct (numpy_serialize_run b s value1 info args1 h l d Hinfo Hl)
    as (r1 & s1 & calls1 & ->).
  assert (Hl1 : (<[l := <["dtype" :=
                   VStr (dtype_name (stored_dtype value1 args1))]> d]> h) !! l
                = Some (<["dtype" :=
                     VStr (dtype_name (stored_dtype value1 args1))]> d)).
  { apply list_lookup_insert_eq. by eapply lookup_lt_Some. }
  destruct (numpy_serialize_run b s1 value2 info args2 _ l _ Hinfo Hl1)
    as (r2 & s2 & calls2 & ->).
  by rewrite list_insert_insert_eq, insert_insert_eq.
Qed.

Lemma numpy_serialize_twice_witness :
  let info := mk_ParamInfo (Some "w") None (Some 0) in
  let '(r1, h1, s1, calls1) :=
    run (fixed_backend example_array)
      (NumpyHandler.serialize example_array info
         (Some (mk_SaveArgs false (Some bfloat16))) [∅]) tt in
  let '(r2, h2, s2, calls2) :=
    run (fixed_backend example_array)
      (NumpyHandler.serialize example_vector info None h1) s1 in
  h2 = [{["dtype" := VStr "int64"]}].
Proof.
  exact (numpy_serialize_twice (fixed_backend example_array) tt
           example_array example_vector
           (mk_ParamInfo (Some "w") None (Some 0))
           (Some (mk_SaveArgs false (Some bfloat16))) None [∅] 0 ∅
           eq_refl eq_refl).
Defined.

Section descriptors.
Context `{Environment}.

(** X16.  Two calls of [param_info] give descriptors whose [tspec] are two
    different dictionaries, and serializing through the first descriptor
    leaves the [tspec] of the second as it was. *)
Theorem numpy_descriptors_do_not_alias {S : Type} (b : backend S) (s : S)
    (directory1 name1 directory2 name2 : string) (value1 value2 : ndarray)
    (args : option SaveArgs) (h : heap) :
  exists (info1 info2 : ParamInfo) (l1 l2 : loc) (h1 h2 : heap),
    NumpyHandler.param_info directory1 name1 value1 h = Ret (Ok info1, h1)
    /\ NumpyHandler.param_info directory2 name2 value2 h1
       = Ret (Ok info2, h2)
    /\ tspec info1 = Some l1
    /\ tspec info2 = Some l2
    /\ l1 <> l2
    /\ is_Some (h2 !! l1)
    /\ is_Some (h2 !! l2)
    /\ let '(r, h3, s', calls) :=
         run b (NumpyHandler.serialize value1 info1 args h2) s in
       h3 !! l2 = h2 !! l2.
Proof.
  eexists _, _, _, _, _, _.
  split; [apply numpy_param_info_eq|].
  split; [apply numpy_param_info_eq|].
  split; [reflexivity|]. split; [reflexivity|].
  assert (Hl1 : forall d1 d2 : gmap string pyval,
            ((h ++ [d1]) ++ [d2]) !! length h = Some d1).
  { intros d1 d2. rewrite lookup_app_l by (rewrite length_app; simpl; lia).
    apply lookup_new. }
  split; [rewrite length_app; simpl; lia|].
  split; [by rewrite Hl1|].
  split; [by rewrite lookup_new|].
  edestruct (numpy_serialize_run b s value1) as (r & s' & calls & ->);
    [reflexivity|apply Hl1|].
  apply list_lookup_insert_ne. rewrite length_app. simpl. lia.
Qed.

End descriptors.

(** ** Distributed arrays *)

Section array_handler.
Context `{Environment}.

Lemma array_param_info_eq (directory name : string)
    (value : GlobalDeviceArray) (h : heap) (v : pyval) :
  _get_metadata value !! "dtype" = Some v ->
  ArrayHandler.param_info directory name value h =
  Ret (Ok (mk_ParamInfo (Some name) None (Some (length h))),
       h ++ [<["metadata" := VDict (delete "dtype" (_get_metadata value))]>
               (get_tensorstore_spec (joinpath directory name))]).
Proof.
  intros Hdtype. unfold ArrayHandler.param_info, bind, alloc. simpl.
  rewrite lookup_new. simpl. rewrite insert_new, Hdtype. simpl.
  rewrite lookup_new. simpl. by rewrite insert_new, insert_insert_eq.
Qed.

(** X17.  When the metadata that JAX computes for the array has a dtype,
    [param_info] of the handler for distributed arrays returns a descriptor
    whose [tspec] is a new dictionary: the spec for the path
    [directory / name] with a [metadata] entry that is JAX's metadata
    without its ["dtype"] and with every other entry as JAX computed it.
    The dictionaries that existed are untouched. *)
Theorem array_param_info_spec (directory name : string)
    (value : GlobalDeviceArray) (h : heap) (v : pyval) :
  _get_metadata value !! "dtype" = Some v ->
  exists (l : loc) (h' : heap) (metadata : gmap string pyval),
    ArrayHandler.param_info directory name value h =
      Ret (Ok (mk_ParamInfo (Some name) None (Some l)), h')
    /\ h !! l = None
    /\ h' !! l =
       Some (<["metadata" := VDict metadata]>
               (get_tensorstore_spec (joinpath directory name)))
    /\ metadata !! "dtype" = None
    /\ (forall key : string, key <> "dtype" ->
          metadata !! key = _get_metadata value !! key)
    /\ forall l' : loc, l' < length h -> h' !! l' = h !! l'.
Proof.
  intros Hdtype. eexists _, _, _.
  split; [by eapply array_param_info_eq|].
  split; [by apply lookup_ge_None_2|].
  split; [apply lookup_new|].
  split; [apply lookup_delete_eq|].
  split; [intros key Hkey; by apply lookup_delete_ne|].
  intros l' Hl'. by rewrite lookup_app_l.
Qed.

(** X18.  When the metadata that JAX computes for the array has no dtype,
    [param_info] of the handler for distributed arrays raises [KeyError]
    for ["dtype"]; the dictionaries that existed are untouched. *)
Theorem array_param_info_no_dtype (directory name : string)
    (value : GlobalDeviceArray) (h : heap) :
  _get_metadata value !! "dtype" = None ->
  exists h' : heap,
    ArrayHandler.param_info directory name value h
    = Ret (Err (KeyError "dtype"), h')
    /\ forall l' : loc, l' < length h -> h' !! l' = h !! l'.
Proof.
  intros Hdtype. unfold ArrayHandler.param_info, bind, alloc. simpl.
  rewrite lookup_new. simpl. rewrite insert_new, Hdtype. simpl.
  eexists. split; [reflexivity|].
  intros l' Hl'. by rewrite lookup_app_l.
Qed.

End array_handler.

Lemma array_param_info_spec_witness :
  exists (l : loc) (h' : heap) (metadata : gmap string pyval),
    @ArrayHandler.param_info local_files "/ckpt" "w" example_gda [] =
      Ret (Ok (mk_ParamInfo (Some "w") None (Some l)), h')
    /\ ([] : heap) !! l = None
    /\ h' !! l =
       Some (<["metadata" := VDict metadata]>
               (@get_tensorstore_spec local_files
                  (@joinpath local_files "/ckpt" "w")))
    /\ metadata !! "dtype" = None
    /\ (forall key : string, key <> "dtype" ->
          metadata !! key = @_get_metadata local_files example_gda !! key)
    /\ forall l' : loc, l' < length ([] : heap) -> h' !! l' = [] !! l'.
Proof.
  exact (@array_param_info_spec local_files "/ckpt" "w" example_gda []
           (VStr "float32") eq_refl).
Defined.

Lemma array_param_info_no_dtype_witness :
  exists h' : heap,
    @ArrayHandler.param_info bare_metadata "/ckpt" "w" example_gda []
    = Ret (Err (KeyError "dtype"), h')
    /\ forall l' : loc, l' < length ([] : heap) -> h' !! l' = [] !! l'.
Proof.
  exact (@array_param_info_no_dtype bare_metadata "/ckpt" "w" example_gda []
           eq_refl).
Defined.

(** What [serialize] of the handler for distributed arrays does for a
    descriptor whose [tspec] is a dictionary. *)
Lemma array_serialize_run {S : Type} (b : backend S) (s : S)
    (value : GlobalDeviceArray) (info : ParamInfo) (args : option SaveArgs)
    (h : heap) (l : loc) (d : gmap string pyval) :
  tspec info = Some l ->
  h !! l = Some d ->
  let h2 :=
    <[l := <["dtype" := VStr (dtype_name (stored_dtype value args))]> d]> h in
  let writing :=
    async_serialize value
      (mk_Spec
         (VDict (<["dtype" := VStr (dtype_name (gda_dtype value))]>
                  (<["driver" := VStr "cast"]> {["base" := VRef l]}))) h2) in
  run b (ArrayHandler.serialize value info args h) s
  = ((b writing s).1, h2, (b writing s).2, [writing]).
Proof.
  intros Hinfo Hl h2 writing. subst h2 writing.
  unfold ArrayHandler.serialize. rewrite Hinfo. unfold bind at 1.
  rewrite (cast_tspec_serialize_eq _ _ _ _ _ Hl).
  destruct args as [[aggregate [target|]]|]; simpl.
  all: unfold dtype_of, gda_has_dtype; by answer b.
Qed.

(** X19.  For a descriptor whose [tspec] is a dictionary, [serialize] of the
    handler for distributed arrays sets the ["dtype"] entry of that
    dictionary in place and makes one call, JAX's distributed write of the
    value under the cast envelope.  It returns the commit futures of that
    write, none added and none awaited, and raises what the write raises. *)
Theorem array_serialize_spec {S : Type} (b : backend S) (s : S)
    (value : GlobalDeviceArray) (info : ParamInfo) (args : option SaveArgs)
    (h : heap) (l : loc) (d : gmap string pyval) :
  tspec info = Some l ->
  h !! l = Some d ->
  exists (envelope : gmap string pyval) (h2 : heap),
    h2 = <[l := <["dtype" := VStr (dtype_name (stored_dtype value args))]> d]>
           h
    /\ envelope !! "base" = Some (VRef l)
    /\ envelope !! "driver" = Some (VStr "cast")
    /\ envelope !! "dtype" = Some (VStr (dtype_name (gda_dtype value)))
    /\ (forall (futures : list Future) (s' : S),
          b (async_serialize value (mk_Spec (VDict envelope) h2)) s
          = (Ok futures, s') ->
          run b (ArrayHandler.serialize value info args h) s
          = (Ok futures, h2, s',
             [async_serialize value (mk_Spec (VDict envelope) h2)]))
    /\ (forall (e : exn) (s' : S),
          b (async_serialize value (mk_Spec (VDict envelope) h2)) s
          = (Err e, s') ->
          run b (ArrayHandler.serialize value info args h) s
          = (Err e, h2, s',
             [async_serialize value (mk_Spec (VDict envelope) h2)])).
Proof.
  intros Hinfo Hl.
  exists (<["dtype" := VStr (dtype_name (gda_dtype value))]>
            (<["driver" := VStr "cast"]> {["base" := VRef l]})),
         (<[l := <["dtype" :=
                     VStr (dtype_name (stored_dtype value args))]> d]> h).
  split; [reflexivity|].
  split; [reflexivity|]. split; [reflexivity|]. split; [reflexivity|].
  split; intros r s' Hb.
  all: rewrite (array_serialize_run b s value info args h l d Hinfo Hl).
  all: by rewrite Hb.
Qed.

Lemma array_serialize_spec_witness :
  let value := example_gda in
  let info := mk_ParamInfo (Some "w") None (Some 0) in
  let args := Some (mk_SaveArgs false (Some bfloat16)) in
  let b := fixed_backend example_array in
  exists (envelope : gmap string pyval) (h2 : heap),
    h2 = [{["dtype" := VStr "bfloat16"]}]
    /\ envelope !! "base" = Some (VRef 0)
    /\ envelope !! "driver" = Some (VStr "cast")
    /\ envelope !! "dtype" = Some (VStr "float32")
    /\ (forall (futures : list Future) (s' : unit),
          b (async_serialize value (mk_Spec (VDict envelope) h2)) tt
          = (Ok futures, s') ->
          run b (ArrayHandler.serialize value info args [∅]) tt
          = (Ok futures, h2, s',
             [async_serialize value (mk_Spec (VDict envelope) h2)]))
    /\ (forall (e : exn) (s' : unit),
          b (async_serialize value (mk_Spec (VDict envelope) h2)) tt
          = (Err e, s') ->
          run b (ArrayHandler.serialize value info args [∅]) tt
          = (Err e, h2, s',
             [async_serialize value (mk_Spec (VDict envelope) h2)])).
Proof.
  exact (array_serialize_spec (fixed_backend example_array) tt example_gda
           (mk_ParamInfo (Some "w") None (Some 0))
           (Some (mk_SaveArgs false (Some bfloat16))) [∅] 0 ∅
           eq_refl eq_refl).
Defined.

Section array_save.
Context `{Environment}.

(** X20.  After [param_info] and [serialize] of the handler for distributed
    arrays, the element type is named once in the descriptor's [tspec]: at
    its top level, where it is the dtype the data is stored as (the cast
    target when one is given), and not in its [metadata]. *)
Theorem array_spec_names_dtype_once {S : Type} (b : backend S) (s : S)
    (directory name : string) (value : GlobalDeviceArray)
    (args : option SaveArgs) (h : heap) (v : pyval) :
  _get_metadata value !! "dtype" = Some v ->
  exists (info : ParamInfo) (l : loc) (h1 : heap),
    ArrayHandler.param_info directory name value h = Ret (Ok info, h1)
    /\ tspec info = Some l
    /\ let '(r, h2, s', calls) :=
         run b (ArrayHandler.serialize value info args h1) s in
       exists (spec metadata : gmap string pyval),
         h2 !! l = Some spec
         /\ spec !! "dtype"
            = Some (VStr (dtype_name (stored_dtype value args)))
         /\ spec !! "metadata" = Some (VDict metadata)
         /\ metadata !! "dtype" = None.
Proof.
  intros Hdtype. eexists _, _, _.
  split; [by eapply array_param_info_eq|]. split; [reflexivity|].
  rewrite (array_serialize_run b s value
             (mk_ParamInfo (Some name) None (Some (length h))) args _
             (length h) _ eq_refl (lookup_new _ _)).
  rewrite insert_new. eexists _, _.
  split; [apply lookup_new|].
  split; [apply lookup_insert_eq|].
  split; [by rewrite lookup_insert_ne, lookup_insert_eq|].
  apply lookup_delete_eq.
Qed.

End array_save.

Lemma array_spec_names_dtype_once_witness :
  exists (info : ParamInfo) (l : loc) (h1 : heap),
    @ArrayHandler.param_info local_files "/ckpt" "w" example_gda []
    = Ret (Ok info, h1)
    /\ tspec info = Some l
    /\ let '(r, h2, s', calls) :=
         run (fixed_backend example_array)
           (ArrayHandler.serialize example_gda info
              (Some (mk_SaveArgs false (Some bfloat16))) h1) tt in
       exists (spec metadata : gmap string pyval),
         h2 !! l = Some spec
         /\ spec !! "dtype" = Some (VStr "bfloat16")
         /\ spec !! "metadata" = Some (VDict metadata)
         /\ metadata !! "dtype" = None.
Proof.
  exact (@array_spec_names_dtype_once local_files unit
           (fixed_backend example_array) tt "/ckpt" "w" example_gda
           (Some (mk_SaveArgs false (Some bfloat16))) [] (VStr "float32")
           eq_refl).
Defined.

(** X21.  With a [mesh] and [mesh_axes], [deserialize] of the handler for
    distributed arrays makes one call, JAX's distributed read with the
    sharding made of that mesh and those axes, the spec that
    [_get_cast_tspec_deserialize] builds, and [global_shape] passed on as
    given; it returns what the read returns, raises what it raises, and
    leaves the store as it was. *)
Theorem array_deserialize_spec {S : Type} (b : backend S) (s : S)
    (info : ParamInfo) (args : ArrayRestoreArgs) (h : heap) (m : Mesh)
    (axes : PartitionSpec) :
  mesh args = Some m ->
  mesh_axes args = Some axes ->
  let reading :=
    async_deserialize (mk_sharding m axes)
      (mk_Spec (_get_cast_tspec_deserialize (tspec info) (super args)) h)
      (global_shape args) in
  run b (ArrayHandler.deserialize info (Some (ForArray args)) h) s
  = ((b reading s).1, h, (b reading s).2, [reading]).
Proof.
  intros Hmesh Haxes reading. subst reading. simpl.
  rewrite Hmesh, Haxes. unfold bind. simpl. by answer b.
Qed.

Lemma array_deserialize_spec_witness :
  run (fixed_backend example_array)
    (ArrayHandler.deserialize (mk_ParamInfo (Some "w") None (Some 0))
       (Some (ForArray
          (mk_ArrayRestoreArgs (mk_RestoreArgs false np_ndarray (Some float32))
             (Some (mk_Mesh [0; 1] ["x"])) (Some [Some "x"])
             (Some [4; 2]%Z)))) [∅]) tt
  = (Ok example_gda, [∅], tt,
     [async_deserialize (mk_sharding (mk_Mesh [0; 1] ["x"]) [Some "x"])
        (mk_Spec
           (VDict (<["dtype" := VStr "float32"]>
                    (<["driver" := VStr "cast"]> {["base" := VRef 0]})))
           [∅]) (Some [4; 2]%Z)]).
Proof.
  exact (array_deserialize_spec (fixed_backend example_array) tt
           (mk_ParamInfo (Some "w") None (Some 0))
           (mk_ArrayRestoreArgs (mk_RestoreArgs false np_ndarray (Some float32))
              (Some (mk_Mesh [0; 1] ["x"])) (Some [Some "x"])
              (Some [4; 2]%Z)) [∅] _ _ eq_refl eq_refl).
Defined.
